(** * csv_writer.py: the CSV writer of the Mumbai traffic simulation

    A shallow embedding of [src/csv_writer.py] (class [CSVWriter]) together
    with the fragment of the Python runtime the class relies on: dynamically
    typed values and their textual renderings ([str], [repr], the [.2f]
    format), the [csv.writer] row encoder, and a small file system with
    [os.path.exists], [os.makedirs] and [open].

    Effects are threaded through a state-and-exception monad: a computation
    takes a state and returns either a value or a raised exception, together
    with the state reached.  [try ... except Exception] is a combinator of that
    monad, so that "no exception escapes" is a property to be proved, not a
    consequence of a return type. *)

From Stdlib Require Import ZArith List Ascii String Bool Lia DecimalString.
From Stdlib Require Import Floats.SpecFloat.
From stdpp Require Import base strings gmap.

Set Warnings "-register-all".

Open Scope string_scope.
Open Scope Z_scope.

(** ** Text helpers *)

Module Text.

Definition dquote : ascii := ascii_of_nat 34.
Definition squote : ascii := ascii_of_nat 39.
Definition backslash : ascii := ascii_of_nat 92.
Definition CR : ascii := ascii_of_nat 13.
Definition LF : ascii := ascii_of_nat 10.
Definition TAB : ascii := ascii_of_nat 9.

Definition CRLF : string := String CR (String LF EmptyString).

(** [sep.join(parts)] *)
Fixpoint join (sep : string) (parts : list string) : string :=
  match parts with
  | [] => EmptyString
  | [p] => p
  | p :: rest => p +:+ sep +:+ join sep rest
  end.

Definition chars (s : string) : list ascii := list_ascii_of_string s.

Definition has_char (c : ascii) (s : string) : bool :=
  existsb (Ascii.eqb c) (chars s).

Definition is_digit (c : ascii) : bool :=
  let n := nat_of_ascii c in (48 <=? n)%nat && (n <=? 57)%nat.

Definition all_digits (s : string) : bool := forallb is_digit (chars s).

(** Decimal numeral of a natural number, and of an integer. *)
Definition dec_N (n : N) : string := NilZero.string_of_uint (N.to_uint n).

Definition dec_Z (z : Z) : string :=
  match z with
  | Zneg p => "-" +:+ dec_N (Npos p)
  | _ => dec_N (Z.to_N z)
  end.

(** [n] written with at least [width] digits, zero padded on the left. *)
Fixpoint zeros (k : nat) : string :=
  match k with
  | O => EmptyString
  | S k' => String "0" (zeros k')
  end.

Definition pad_N (width : nat) (n : N) : string :=
  let d := dec_N n in zeros (width - String.length d) +:+ d.

Definition hex_digit (n : nat) : ascii :=
  if (n <? 10)%nat then ascii_of_nat (48 + n) else ascii_of_nat (87 + n).

(** position of the last occurrence of [c], counted from the left *)
Fixpoint last_index (c : ascii) (s : string) (i : nat) (found : option nat)
  : option nat :=
  match s with
  | EmptyString => found
  | String a rest =>
      last_index c rest (S i) (if Ascii.eqb a c then Some i else found)
  end.

End Text.

(** ** Python values *)

Module Py.
Import Text.

(** The values that reach the writer.  A [dict] lists its items in
    insertion order, which is the order [str] prints them in.  Python's
    [float] is the set of valid binary64 numbers among [spec_float]. *)
Inductive pyval : Type :=
| PyNone
| PyBool (b : bool)
| PyInt (z : Z)
| PyFloat (f : spec_float)
| PyStr (s : string)
| PyList (l : list pyval)
| PyDict (d : list (pyval * pyval)).

Definition pydict : Type := list (pyval * pyval).

Inductive os_errno : Type := ENOENT | ENOTDIR | EISDIR | EEXIST | EACCES.

(** The exceptions (all subclasses of [Exception]) the modelled code can
    raise. *)
Inductive exn : Type :=
| KeyError (key : string)
| TypeError
| ValueError
| OverflowError
| AttributeError
| OSError (errno : os_errno) (path : string).

(** [d.get(key)] for a string key: only a [str] key equal to [key]
    matches (the keys of a dict are distinct, so at most one item
    does). *)
Fixpoint dict_lookup (key : string) (d : pydict) : option pyval :=
  match d with
  | [] => None
  | (PyStr k, v) :: rest =>
      if String.eqb k key then Some v else dict_lookup key rest
  | _ :: rest => dict_lookup key rest
  end.

(** [d.get(key, default)] *)
Definition dict_get (d : pydict) (key : string) (default : pyval) : pyval :=
  match dict_lookup key d with
  | Some v => v
  | None => default
  end.

(** [bool(v)] *)
Definition truthy (v : pyval) : bool :=
  match v with
  | PyNone => false
  | PyBool b => b
  | PyInt z => negb (z =? 0)
  | PyFloat (S754_zero _) => false
  | PyFloat _ => true
  | PyStr s => negb (String.eqb s EmptyString)
  | PyList l => match l with [] => false | _ => true end
  | PyDict d => match d with [] => false | _ => true end
  end.

(** *** [repr] of a [str]

    A string is taken as the bytes of its text; the bytes above 127 stand
    for printable characters, which [repr] copies. *)

Definition escape_char (quote c : ascii) : string :=
  let n := nat_of_ascii c in
  if Ascii.eqb c quote || Ascii.eqb c backslash then
    String backslash (String c EmptyString)
  else if Ascii.eqb c TAB then String backslash "t"
  else if Ascii.eqb c LF then String backslash "n"
  else if Ascii.eqb c CR then String backslash "r"
  else if (n <? 32)%nat || (n =? 127)%nat then
    String backslash
      (String "x" (String (hex_digit (n / 16)) (String (hex_digit (n mod 16)) EmptyString)))
  else String c EmptyString.

Fixpoint escape (quote : ascii) (s : string) : string :=
  match s with
  | EmptyString => EmptyString
  | String c rest => escape_char quote c +:+ escape quote rest
  end.

Definition str_repr (s : string) : string :=
  let quote :=
    if has_char squote s && negb (has_char dquote s) then dquote else squote in
  String quote (escape quote s) +:+ String quote EmptyString.

(** *** [repr] of a [float]: the shortest decimal that reads back as the
    same binary64 number, found by free-format digit generation over exact
    integers.  Where two last digits would do and the number lies half way
    between them, the even one is taken. *)

Record digit_gen : Type :=
  { dg_r : Z; dg_s : Z; dg_mplus : Z; dg_mminus : Z }.

Definition digit_gen_init (m : positive) (e : Z) : digit_gen :=
  let f := Zpos m in
  let closer_below := (f =? 2 ^ 52) && negb (e =? -1074) in
  if 0 <=? e then
    if closer_below then
      {| dg_r := f * 2 ^ (e + 1) * 2; dg_s := 4; dg_mplus := 2 ^ (e + 1); dg_mminus := 2 ^ e |}
    else
      {| dg_r := f * 2 ^ e * 2; dg_s := 2; dg_mplus := 2 ^ e; dg_mminus := 2 ^ e |}
  else
    if closer_below then
      {| dg_r := f * 4; dg_s := 2 ^ (2 - e); dg_mplus := 2; dg_mminus := 1 |}
    else
      {| dg_r := f * 2; dg_s := 2 ^ (1 - e); dg_mplus := 1; dg_mminus := 1 |}.

Fixpoint digit_gen_scale (fuel : nat) (incl : bool) (st : digit_gen) (k : Z)
  : digit_gen * Z :=
  match fuel with
  | O => (st, k)
  | S fuel' =>
      let hi := dg_r st + dg_mplus st in
      if (if incl then dg_s st <=? hi else dg_s st <? hi) then
        digit_gen_scale fuel' incl
          {| dg_r := dg_r st; dg_s := dg_s st * 10;
             dg_mplus := dg_mplus st; dg_mminus := dg_mminus st |} (k + 1)
      else if (if incl then hi * 10 <? dg_s st else hi * 10 <=? dg_s st) then
        digit_gen_scale fuel' incl
          {| dg_r := dg_r st * 10; dg_s := dg_s st;
             dg_mplus := dg_mplus st * 10; dg_mminus := dg_mminus st * 10 |} (k - 1)
      else (st, k)
  end.

Fixpoint digit_gen_run (fuel : nat) (incl : bool) (st : digit_gen) : list Z :=
  match fuel with
  | O => []
  | S fuel' =>
      let r10 := dg_r st * 10 in
      let mp := dg_mplus st * 10 in
      let mm := dg_mminus st * 10 in
      let d := r10 / dg_s st in
      let r := r10 mod dg_s st in
      let low := if incl then r <=? mm else r <? mm in
      let high := if incl then dg_s st <=? r + mp else dg_s st <? r + mp in
      match low, high with
      | false, false =>
          d :: digit_gen_run fuel' incl
                 {| dg_r := r; dg_s := dg_s st; dg_mplus := mp; dg_mminus := mm |}
      | false, true => [d + 1]
      | true, false => [d]
      | true, true =>
          match 2 * r ?= dg_s st with
          | Lt => [d]
          | Gt => [d + 1]
          | Eq => if Z.even d then [d] else [d + 1]
          end
      end
  end.

(** digits [d1 d2 ...] and the decimal point position [k]:
    the value is [0.d1d2... * 10^k] *)
Definition shortest_digits (m : positive) (e : Z) : list Z * Z :=
  let incl := Z.even (Zpos m) in
  let '(st, k) := digit_gen_scale 800 incl (digit_gen_init m e) 0 in
  (digit_gen_run 40 incl st, k).

Definition digits_string (ds : list Z) : string :=
  fold_right (fun d acc => dec_Z d +:+ acc) EmptyString ds.

Definition float_repr_finite (neg : bool) (m : positive) (e : Z) : string :=
  let '(ds, k) := shortest_digits m e in
  let n := Z.of_nat (List.length ds) in
  let sign := if neg then "-" else EmptyString in
  let body :=
    if (k <=? -4) || (16 <? k) then
      let mant :=
        match ds with
        | [] => EmptyString
        | [d] => dec_Z d
        | d :: rest => dec_Z d +:+ "." +:+ digits_string rest
        end in
      let x := k - 1 in
      mant +:+ "e" +:+ (if x <? 0 then "-" else "+") +:+ pad_N 2 (Z.abs_N x)
    else if k <=? 0 then
      "0." +:+ zeros (Z.to_nat (- k)) +:+ digits_string ds
    else if n <=? k then
      digits_string ds +:+ zeros (Z.to_nat (k - n)) +:+ ".0"
    else
      digits_string (firstn (Z.to_nat k) ds) +:+ "." +:+
      digits_string (skipn (Z.to_nat k) ds)
  in sign +:+ body.

Definition float_repr (f : spec_float) : string :=
  match f with
  | S754_nan => "nan"
  | S754_infinity s => if s then "-inf" else "inf"
  | S754_zero s => if s then "-0.0" else "0.0"
  | S754_finite s m e => float_repr_finite s m e
  end.

(** *** [repr] and [str] *)

Fixpoint py_repr (v : pyval) : string :=
  match v with
  | PyNone => "None"
  | PyBool b => if b then "True" else "False"
  | PyInt z => dec_Z z
  | PyFloat f => float_repr f
  | PyStr s => str_repr s
  | PyList l => "[" +:+ join ", " (map py_repr l) +:+ "]"
  | PyDict d =>
      "{" +:+
      join ", " (map (fun kv => py_repr (fst kv) +:+ ": " +:+ py_repr (snd kv)) d)
      +:+ "}"
  end.

Definition py_str (v : pyval) : string :=
  match v with
  | PyStr s => s
  | _ => py_repr v
  end.

(** *** The format specification [.2f] *)

(** nearest integer to [num / den], ties to even ([0 <= num], [0 < den]) *)
Definition round_half_even (num den : Z) : Z :=
  let q := num / den in
  let r := num mod den in
  match 2 * r ?= den with
  | Lt => q
  | Gt => q + 1
  | Eq => if Z.even q then q else q + 1
  end.

(** the magnitude [m * 2^e], in hundredths, correctly rounded *)
Definition hundredths (m e : Z) : Z :=
  if 0 <=? e then m * 2 ^ e * 100 else round_half_even (m * 100) (2 ^ (- e)).

Definition fixed2 (neg : bool) (m e : Z) : string :=
  let h := hundredths m e in
  (if neg then "-" else EmptyString) +:+
  dec_N (Z.to_N (h / 100)) +:+ "." +:+ pad_N 2 (Z.to_N (h mod 100)).

(** [format(f, '.2f')] for a float *)
Definition float_format_2f (f : spec_float) : string :=
  match f with
  | S754_nan => "nan"
  | S754_infinity s => if s then "-inf" else "inf"
  | S754_zero s => fixed2 s 0 0
  | S754_finite s m e => fixed2 s (Zpos m) e
  end.

(** [float(z)] for an int: nearest binary64, ties to even; too large an
    int raises [OverflowError] *)
Definition int_to_float (z : Z) : exn + spec_float :=
  match binary_normalize 53 1024 z 0 false with
  | S754_infinity _ => inl OverflowError
  | f => inr f
  end.

(** [f"{v:.2f}"] *)
Definition format_2f (v : pyval) : exn + string :=
  match v with
  | PyFloat f => inr (float_format_2f f)
  | PyInt z =>
      match int_to_float z with
      | inl e => inl e
      | inr f => inr (float_format_2f f)
      end
  | PyBool b => inr (float_format_2f (if b then S754_finite false 4503599627370496 (-52)
                                     else S754_zero false))
  | PyStr _ => inl ValueError
  | PyNone | PyList _ | PyDict _ => inl TypeError
  end.

End Py.

(** ** [csv.writer] with the default (excel) dialect *)

Module Csv.
Import Text Py.

(** the text of a cell: [None] is written as nothing, a [str] as it is,
    any other value through [str] *)
Definition cell_text (v : pyval) : string :=
  match v with
  | PyNone => EmptyString
  | _ => py_str v
  end.

(** QUOTE_MINIMAL: a field is quoted when it holds the delimiter, the
    quote character or a character of the line terminator *)
Definition special (c : ascii) : bool :=
  Ascii.eqb c "," || Ascii.eqb c dquote || Ascii.eqb c CR || Ascii.eqb c LF.

Definition needs_quote (s : string) : bool := existsb special (chars s).

Fixpoint double_quotes (s : string) : string :=
  match s with
  | EmptyString => EmptyString
  | String c rest =>
      if Ascii.eqb c dquote then String dquote (String dquote (double_quotes rest))
      else String c (double_quotes rest)
  end.

Definition quoted (s : string) : string :=
  String dquote (double_quotes s) +:+ String dquote EmptyString.

Definition field (s : string) : string :=
  if needs_quote s then quoted s else s.

(** the text [writer.writerow(cells)] writes; a row made of one empty
    field is written as a quoted empty field *)
Definition writerow (cells : list pyval) : string :=
  let body := join "," (map (fun v => field (cell_text v)) cells) in
  match cells, body with
  | _ :: _, EmptyString => quoted EmptyString +:+ CRLF
  | _, _ => body +:+ CRLF
  end.

End Csv.

(** ** Computations: state and exceptions *)

Module Eff.
Import Py.

Inductive outcome (A : Type) : Type :=
| Return (a : A)
| Raise (e : exn).
Arguments Return {A} a.
Arguments Raise {A} e.

(** a computation over a state [S] *)
Definition M (S A : Type) : Type := S -> outcome A * S.

Definition ret {S A : Type} (a : A) : M S A := fun s => (Return a, s).

Definition raise {S A : Type} (e : exn) : M S A := fun s => (Raise e, s).

(** sequencing: an exception skips the rest, and the state reached when
    it was raised is kept *)
Definition bind {S A B : Type} (c : M S A) (k : A -> M S B) : M S B :=
  fun s =>
    match c s with
    | (Return a, s') => k a s'
    | (Raise e, s') => (Raise e, s')
    end.

(** [try: body  except Exception as e: handler(e)] *)
Definition try_except {S A : Type} (body : M S A) (handler : exn -> M S A)
  : M S A :=
  fun s =>
    match body s with
    | (Return a, s') => (Return a, s')
    | (Raise e, s') => handler e s'
    end.

(** a value or an exception computed without effects *)
Definition lift {S A : Type} (r : exn + A) : M S A :=
  match r with
  | inl e => raise e
  | inr a => ret a
  end.

(** [for x in xs: body(x)] *)
Fixpoint for_each {S A : Type} (xs : list A) (body : A -> M S unit)
  : M S unit :=
  match xs with
  | [] => ret tt
  | x :: rest => bind (body x) (fun _ => for_each rest body)
  end.

(** run a computation on the second component of a pair state *)
Definition on_snd {S1 S2 A : Type} (c : M S2 A) : M (S1 * S2) A :=
  fun s =>
    match c (snd s) with
    | (r, s2) => (r, (fst s, s2))
    end.

Definition get_fst {S1 S2 : Type} : M (S1 * S2) S1 :=
  fun s => (Return (fst s), s).

Definition modify_fst {S1 S2 : Type} (f : S1 -> S1) : M (S1 * S2) unit :=
  fun s => (Return tt, (f (fst s), snd s)).

Definition raised {A : Type} (r : outcome A) : bool :=
  match r with
  | Raise _ => true
  | Return _ => false
  end.

End Eff.

Declare Scope eff_scope.
Delimit Scope eff_scope with eff.
Notation "'let!' x ':=' c 'in' k" := (Eff.bind c (fun x => k))
  (at level 10, x name, c at level 100, k at level 200) : eff_scope.
Notation "c ';;' k" := (Eff.bind c (fun _ => k))
  (at level 100, k at level 200, right associativity) : eff_scope.
Open Scope eff_scope.

(** ** The file system and the console *)

Module OS.
Import Text Py Eff.

Inductive node : Type :=
| Dir
| File (content : string).

(** a line printed by a handler: the literal text of the f-string and the
    exception interpolated after it *)
Record log_line : Type := { message : string; cause : exn }.

(** [denied] holds the paths the operating system refuses to create or to
    open for writing (permissions, read-only volume, quota) *)
Record world : Type :=
  { fs : gmap string node; denied : gset string; stdout : list log_line }.

Definition set_fs (f : gmap string node -> gmap string node) (w : world) : world :=
  {| fs := f (fs w); denied := denied w; stdout := stdout w |}.

(** *** [os.path] *)

Fixpoint all_slashes (s : string) : bool :=
  match s with
  | EmptyString => true
  | String c rest => Ascii.eqb c "/" && all_slashes rest
  end.

(** [s.rstrip('/')] *)
Fixpoint rstrip_slashes (s : string) : string :=
  match s with
  | EmptyString => EmptyString
  | String c rest =>
      if all_slashes (String c rest) then EmptyString
      else String c (rstrip_slashes rest)
  end.

(** [os.path.dirname(p)] *)
Definition dirname (p : string) : string :=
  match last_index "/" p 0 None with
  | None => EmptyString
  | Some i =>
      let head := substring 0 (S i) p in
      if all_slashes head then head else rstrip_slashes head
  end.

Definition starts_with_slash (s : string) : bool :=
  match s with
  | String c _ => Ascii.eqb c "/"
  | EmptyString => false
  end.

Fixpoint ends_with_slash (s : string) : bool :=
  match s with
  | EmptyString => false
  | String c EmptyString => Ascii.eqb c "/"
  | String _ rest => ends_with_slash rest
  end.

(** [os.path.join(a, b)] *)
Definition path_join (a b : string) : string :=
  if starts_with_slash b then b
  else if String.eqb a EmptyString || ends_with_slash a then a +:+ b
  else a +:+ "/" +:+ b.

(** [os.path.exists(p)] *)
Definition path_exists (p : string) : M world bool :=
  fun w => (Return (bool_decide (is_Some (fs w !! p))), w).

(** why an entry cannot be made or opened under the parent of [p] *)
Definition parent_error (w : world) (p : string) : option os_errno :=
  let d := dirname p in
  if String.eqb d EmptyString then None
  else
    match fs w !! d with
    | Some Dir => None
    | Some (File _) => Some ENOTDIR
    | None => Some ENOENT
    end.

(** [os.mkdir(p)] *)
Definition mkdir (p : string) : M world unit :=
  fun w =>
    match fs w !! p with
    | Some _ => (Raise (OSError EEXIST p), w)
    | None =>
        match parent_error w p with
        | Some errno => (Raise (OSError errno p), w)
        | None =>
            if bool_decide (p ∈ denied w) then (Raise (OSError EACCES p), w)
            else (Return tt, set_fs (insert p Dir) w)
        end
    end.

(** [os.path.isdir(p)] *)
Definition path_isdir (p : string) : M world bool :=
  fun w => (Return (match fs w !! p with Some Dir => true | _ => false end), w).

(** [os.makedirs(p, exist_ok=...)] for a path written without a trailing
    slash or dot component: when the parent is missing it is made first
    (an [EEXIST] from that recursive call is ignored), then [p] itself is
    made, and the error of [mkdir] is dropped only with [exist_ok] on a
    directory; the recursion goes up the path, which [fuel] bounds by
    its length *)
Fixpoint makedirs_aux (fuel : nat) (p : string) (exist_ok : bool) : M world unit :=
  let head := dirname p in
  (match fuel with
   | O => ret tt
   | S fuel' =>
       if String.eqb head EmptyString || String.eqb head p then ret tt
       else
         let! present := path_exists head in
         if present then ret tt
         else
           try_except (makedirs_aux fuel' head exist_ok)
             (fun e =>
                match e with
                | OSError EEXIST _ => ret tt
                | _ => raise e
                end)
   end) ;;
  try_except (mkdir p)
    (fun e =>
       let! isdir := path_isdir p in
       if exist_ok && isdir then ret tt else raise e).

Definition makedirs (p : string) : M world unit :=
  makedirs_aux (String.length p) p false.

(** *** Files *)

Inductive file_mode : Type := ModeW | ModeA.

(** the exception [open(p, mode)] raises in [w] for a writing mode, if
    any *)
Definition open_error (w : world) (p : string) : option exn :=
  match parent_error w p with
  | Some errno => Some (OSError errno p)
  | None =>
      match fs w !! p with
      | Some Dir => Some (OSError EISDIR p)
      | _ => if bool_decide (p ∈ denied w) then Some (OSError EACCES p) else None
      end
  end.

(** [open(p, mode, newline=...)] with an empty [newline]: mode [w] creates
    or truncates, mode [a] creates or keeps *)
Definition open_file (p : string) (mode : file_mode) : M world unit :=
  fun w =>
    match open_error w p with
    | Some e => (Raise e, w)
    | None =>
        match mode, fs w !! p with
        | ModeA, Some _ => (Return tt, w)
        | _, _ => (Return tt, set_fs (insert p (File EmptyString)) w)
        end
    end.

(** a write through the handle opened on [p]: the text goes to the end of
    the file *)
Definition file_write (p : string) (text : string) : M world unit :=
  fun w =>
    match fs w !! p with
    | Some (File c) => (Return tt, set_fs (insert p (File (c +:+ text))) w)
    | _ => (Raise (OSError ENOENT p), w)
    end.

(** [print(f"<message>{e}")] *)
Definition print (msg : string) (e : exn) : M world unit :=
  fun w =>
    (Return tt,
     {| fs := fs w; denied := denied w;
        stdout := stdout w ++ [{| message := msg; cause := e |}] |}).

End OS.

(** ** class CSVWriter *)

Import Text Py Eff OS.

Record CSVWriter : Type :=
  { config : pyval;
    output_dir : string;
    data_file : string;
    hazard_file : string;
    data_path : string;
    hazard_path : string;
    append_mode : pyval;
    write_header_data : bool;
    write_header_hazard : bool }.

Definition set_write_header_data (b : bool) (self : CSVWriter) : CSVWriter :=
  {| config := config self; output_dir := output_dir self;
     data_file := data_file self; hazard_file := hazard_file self;
     data_path := data_path self; hazard_path := hazard_path self;
     append_mode := append_mode self;
     write_header_data := b;
     write_header_hazard := write_header_hazard self |}.

Definition set_write_header_hazard (b : bool) (self : CSVWriter) : CSVWriter :=
  {| config := config self; output_dir := output_dir self;
     data_file := data_file self; hazard_file := hazard_file self;
     data_path := data_path self; hazard_path := hazard_path self;
     append_mode := append_mode self;
     write_header_data := write_header_data self;
     write_header_hazard := b |}.

(** [v[key]] *)
Definition subscript (v : pyval) (key : string) : exn + pyval :=
  match v with
  | PyDict d =>
      match dict_lookup key d with
      | Some x => inr x
      | None => inl (KeyError key)
      end
  | _ => inl TypeError
  end.

(** [v.get(key, default)]: only a dict has the method *)
Definition method_get (v : pyval) (key : string) (default : pyval) : exn + pyval :=
  match v with
  | PyDict d => inr (dict_get d key default)
  | _ => inl AttributeError
  end.

(** [CSVWriter(config)] *)
Definition __init__ (config : pyval) : M world CSVWriter :=
  let output_dir := "output_data" in
  let data_file := "simulation_data.csv" in
  let hazard_file := "hazard_events.csv" in
  let! present := path_exists output_dir in
  (if negb present then makedirs output_dir else ret tt) ;;
  let data_path := path_join output_dir data_file in
  let hazard_path := path_join output_dir hazard_file in
  let! simulation := lift (subscript config "simulation") in
  let! append_mode := lift (method_get simulation "csv_append_mode" (PyBool true)) in
  ret {| config := config;
         output_dir := output_dir;
         data_file := data_file;
         hazard_file := hazard_file;
         data_path := data_path;
         hazard_path := hazard_path;
         append_mode := append_mode;
         write_header_data := true;
         write_header_hazard := true |}.

Definition data_header : list pyval :=
  map PyStr
    ["timestamp"; "step"; "vehicle_id"; "type";
     "x"; "y"; "speed"; "acceleration"; "angle"; "lane_id"; "hazard_active"].

Definition hazard_header : list pyval :=
  map PyStr ["timestamp"; "hazard_name"; "metadata"].

(** the test [self.append_mode and os.path.exists(p)] *)
Definition append_and_exists (self : CSVWriter) (p : string) : M world bool :=
  if truthy (append_mode self) then path_exists p else ret false.

(** [self.initialize_files()]; the state is the object and the world *)
Definition initialize_files : M (CSVWriter * world) bool :=
  try_except
    (let! self := get_fst in
     let mode := if truthy (append_mode self) then ModeA else ModeW in
     let! skip_data := on_snd (append_and_exists self (data_path self)) in
     (if skip_data then modify_fst (set_write_header_data false) else ret tt) ;;
     let! skip_hazard := on_snd (append_and_exists self (hazard_path self)) in
     (if skip_hazard then modify_fst (set_write_header_hazard false) else ret tt) ;;
     let! self := get_fst in
     (if negb (truthy (append_mode self)) || write_header_data self then
        on_snd (open_file (data_path self) ModeW ;;
                file_write (data_path self) (Csv.writerow data_header))
      else ret tt) ;;
     (if negb (truthy (append_mode self)) || write_header_hazard self then
        on_snd (open_file (hazard_path self) ModeW ;;
                file_write (hazard_path self) (Csv.writerow hazard_header))
      else ret tt) ;;
     ret true)
    (fun e =>
       on_snd (print "Failed to initialize CSV files: " e) ;;
       ret false).

(** the cells of one sample row; the five f-strings are evaluated in the
    order of the list, and the first that fails raises *)
Definition sample_row (timestamp step : pyval) (data : pydict) : exn + list pyval :=
  match format_2f (dict_get data "x" (PyInt 0)) with
  | inl e => inl e
  | inr x =>
  match format_2f (dict_get data "y" (PyInt 0)) with
  | inl e => inl e
  | inr y =>
  match format_2f (dict_get data "speed" (PyInt 0)) with
  | inl e => inl e
  | inr speed =>
  match format_2f (dict_get data "acceleration" (PyInt 0)) with
  | inl e => inl e
  | inr acceleration =>
  match format_2f (dict_get data "angle" (PyInt 0)) with
  | inl e => inl e
  | inr angle =>
      inr [timestamp;
           step;
           dict_get data "id" (PyStr EmptyString);
           dict_get data "type" (PyStr EmptyString);
           PyStr x;
           PyStr y;
           PyStr speed;
           PyStr acceleration;
           PyStr angle;
           dict_get data "lane" (PyStr EmptyString);
           dict_get data "hazard_active" (PyBool false)]
  end end end end end.

(** [self.write_data(sensor_data, simulation_state)] *)
Definition write_data (self : CSVWriter) (sensor_data : list pydict)
    (simulation_state : pydict) : M world unit :=
  match sensor_data with
  | [] => ret tt
  | _ :: _ =>
      try_except
        (let timestamp := dict_get simulation_state "simulation_time" (PyInt 0) in
         let step := dict_get simulation_state "step" (PyInt 0) in
         open_file (data_path self) ModeA ;;
         for_each sensor_data
           (fun data =>
              let! row := lift (sample_row timestamp step data) in
              file_write (data_path self) (Csv.writerow row)))
        (fun e => print "Error writing data: " e)
  end.

(** the cells of the row of one hazard event *)
Definition hazard_row (hazard_event : pydict) : list pyval :=
  [dict_get hazard_event "timestamp" (PyInt 0);
   dict_get hazard_event "hazard_name" (PyStr "unknown");
   PyStr (py_str (dict_get hazard_event "metadata" (PyDict [])))].

(** [self.write_hazard_event(hazard_event)] *)
Definition write_hazard_event (self : CSVWriter) (hazard_event : pydict)
    : M world unit :=
  try_except
    (open_file (hazard_path self) ModeA ;;
     file_write (hazard_path self) (Csv.writerow (hazard_row hazard_event)))
    (fun e => print "Error writing hazard event: " e).

(** ** Notions used to state the properties *)

(** the text held by the file at [p] (nothing when there is no file) *)
Definition content_of (w : world) (p : string) : string :=
  match fs w !! p with
  | Some (File c) => c
  | _ => EmptyString
  end.

Definition present (w : world) (p : string) : bool :=
  bool_decide (is_Some (fs w !! p)).

(** the world after a handler has printed [msg] followed by [e] *)
Definition logged (msg : string) (e : exn) (w : world) : world :=
  {| fs := fs w; denied := denied w;
     stdout := stdout w ++ [{| message := msg; cause := e |}] |}.

(** the file at [p] replaced by one holding [text] *)
Definition with_file (p : string) (text : string) (w : world) : world :=
  set_fs (insert p (File text)) w.

(** the path attributes as the constructor sets them *)
Definition standard_paths (self : CSVWriter) : bool :=
  String.eqb (output_dir self) "output_data" &&
  String.eqb (data_path self) "output_data/simulation_data.csv" &&
  String.eqb (hazard_path self) "output_data/hazard_events.csv".

(** a header is needed for [p]: not in append mode, or in append mode and
    nothing exists at [p] *)
Definition header_needed (self : CSVWriter) (w : world) (p : string) : bool :=
  negb (truthy (append_mode self)) || negb (present w p).

(** a header flag is cleared only for a destination that exists; true of a
    new object, and kept by every method since none removes a file *)
Definition flags_consistent (self : CSVWriter) (w : world) : bool :=
  (write_header_data self || present w (data_path self)) &&
  (write_header_hazard self || present w (hazard_path self)).




(** the five columns that go through the [.2f] format, with their index
    in the row *)
Definition numeric_columns : list (nat * string) :=
  [(4%nat, "x"); (5%nat, "y"); (6%nat, "speed"); (7%nat, "acceleration");
   (8%nat, "angle")].

(** every [.2f] column of [data] that is present formats without error *)
Definition formattable (data : pydict) : bool :=
  forallb
    (fun col =>
       match format_2f (dict_get data (snd col) (PyInt 0)) with
       | inr _ => true
       | inl _ => false
       end)
    numeric_columns.

(** *** A sample row as the specification words it *)

(** a plain column: the field if the record has it, else the default *)
Definition plain_cell (data : pydict) (key : string) (default cell : pyval) : Prop :=
  match dict_lookup key data with
  | Some v => cell = v
  | None => cell = default
  end.

(** a numeric column: the field formatted with two decimals if the record
    has it, else zero so formatted *)
Definition numeric_cell (data : pydict) (key : string) (cell : pyval) : Prop :=
  match dict_lookup key data with
  | Some v => exists text, format_2f v = inr text /\ cell = PyStr text
  | None => cell = PyStr "0.00"
  end.

Definition row_matches (timestamp step : pyval) (data : pydict)
    (cells : list pyval) : Prop :=
  exists id type x y speed acceleration angle lane hazard,
    cells = [timestamp; step; id; type; x; y; speed; acceleration; angle;
             lane; hazard] /\
    plain_cell data "id" (PyStr EmptyString) id /\
    plain_cell data "type" (PyStr EmptyString) type /\
    numeric_cell data "x" x /\
    numeric_cell data "y" y /\
    numeric_cell data "speed" speed /\
    numeric_cell data "acceleration" acceleration /\
    numeric_cell data "angle" angle /\
    plain_cell data "lane" (PyStr EmptyString) lane /\
    plain_cell data "hazard_active" (PyBool false) hazard.

(** the text of a sequence of rows, one line per row *)
Definition rows_text (rows : list (list pyval)) : string :=
  fold_right (fun row acc => Csv.writerow row +:+ acc) EmptyString rows.

(** *** Sample inputs *)

Definition empty_world : world :=
  {| fs := ∅; denied := ∅; stdout := [] |}.

(** the output directory is there, and nothing else *)
Definition world_with_dir : world :=
  {| fs := {[ "output_data" := Dir ]}; denied := ∅; stdout := [] |}.

(** the output directory is missing and may not be made *)
Definition world_read_only : world :=
  {| fs := ∅; denied := {[ "output_data" ]}; stdout := [] |}.

(** a configuration with an empty simulation section *)
Definition config_default : pyval :=
  PyDict [(PyStr "simulation", PyDict [])].

(** the object the constructor returns for [config_default] *)
Definition writer_default : CSVWriter :=
  {| config := config_default;
     output_dir := "output_data";
     data_file := "simulation_data.csv";
     hazard_file := "hazard_events.csv";
     data_path := "output_data/simulation_data.csv";
     hazard_path := "output_data/hazard_events.csv";
     append_mode := PyBool true;
     write_header_data := true;
     write_header_hazard := true |}.

(** *** What [initialize_files] computes, as a function *)

(** the object once the two existence checks have run *)
Definition after_checks (self : CSVWriter) (w : world) : CSVWriter :=
  let a := truthy (append_mode self) in
  let s1 :=
    if a && present w (data_path self) then set_write_header_data false self
    else self in
  if a && present w (hazard_path self) then set_write_header_hazard false s1
  else s1.

(** one header block: skipped, failed at [open], or the file rewritten *)
Definition header_step (go : bool) (p : string) (header : list pyval)
    (w : world) : exn + world :=
  if go then
    match open_error w p with
    | Some e => inl e
    | None => inr (with_file p (Csv.writerow header) w)
    end
  else inr w.

Definition init_message : string := "Failed to initialize CSV files: ".

Definition initialize_files_result (self : CSVWriter) (w : world)
    : bool * (CSVWriter * world) :=
  let s' := after_checks self w in
  let a := truthy (append_mode self) in
  match header_step (negb a || write_header_data s') (data_path self)
          data_header w with
  | inl e => (false, (s', logged init_message e w))
  | inr w1 =>
      match header_step (negb a || write_header_hazard s') (hazard_path self)
              hazard_header w1 with
      | inl e => (false, (s', logged init_message e w1))
      | inr w2 => (true, (s', w2))
      end
  end.


(** *** What the two writing methods compute *)

(** the world once [text] has been written at the end of the file at [p]
    (the file is made if it was missing) *)
Definition appended (p text : string) (w : world) : world :=
  with_file p (content_of w p +:+ text) w.

(** the rows of the records before the first that fails to format, and
    that failure *)
Fixpoint sample_rows (timestamp step : pyval) (records : list pydict)
  : list (list pyval) * option exn :=
  match records with
  | [] => ([], None)
  | data :: rest =>
      match sample_row timestamp step data with
      | inl e => ([], Some e)
      | inr row =>
          let '(rows, err) := sample_rows timestamp step rest in
          (row :: rows, err)
      end
  end.

Definition data_message : string := "Error writing data: ".
Definition hazard_message : string := "Error writing hazard event: ".

Definition write_data_result (self : CSVWriter) (sensor_data : list pydict)
    (simulation_state : pydict) (w : world) : world :=
  match sensor_data with
  | [] => w
  | _ :: _ =>
      match open_error w (data_path self) with
      | Some e => logged data_message e w
      | None =>
          let timestamp := dict_get simulation_state "simulation_time" (PyInt 0) in
          let step := dict_get simulation_state "step" (PyInt 0) in
          let '(rows, err) := sample_rows timestamp step sensor_data in
          let w1 := appended (data_path self) (rows_text rows) w in
          match err with
          | None => w1
          | Some e => logged data_message e w1
          end
      end
  end.

Definition write_hazard_event_result (self : CSVWriter) (hazard_event : pydict)
    (w : world) : world :=
  match open_error w (hazard_path self) with
  | Some e => logged hazard_message e w
  | None => appended (hazard_path self) (Csv.writerow (hazard_row hazard_event)) w
  end.

(** *** What the constructor computes *)

(** the world the constructor leaves behind once the output directory has
    been seen or made, or the exception of [os.makedirs] *)
Definition ensure_output_dir (w : world) : exn + world :=
  if present w "output_data" then inr w
  else if bool_decide ("output_data" ∈ denied w) then
    inl (OSError EACCES "output_data")
  else inr (set_fs (insert "output_data" Dir) w).

(** the object built for a given value of [append_mode] *)
Definition new_writer (config append_mode : pyval) : CSVWriter :=
  {| config := config;
     output_dir := "output_data";
     data_file := "simulation_data.csv";
     hazard_file := "hazard_events.csv";
     data_path := "output_data/simulation_data.csv";
     hazard_path := "output_data/hazard_events.csv";
     append_mode := append_mode;
     write_header_data := true;
     write_header_hazard := true |}.

(** *** A client: a sequence of calls on one object *)

Inductive call : Type :=
| CallInitialize
| CallWriteData (sensor_data : list pydict) (simulation_state : pydict)
| CallWriteHazard (hazard_event : pydict).

(** one method call, its return value dropped *)
Definition run_call (c : call) : M (CSVWriter * world) unit :=
  match c with
  | CallInitialize => initialize_files ;; ret tt
  | CallWriteData sensor_data simulation_state =>
      let! self := get_fst in
      on_snd (write_data self sensor_data simulation_state)
  | CallWriteHazard hazard_event =>
      let! self := get_fst in
      on_snd (write_hazard_event self hazard_event)
  end.

(** the calls made one after the other *)
Definition run_calls (calls : list call) : M (CSVWriter * world) unit :=
  for_each calls run_call.

(** *** The header blocks of [initialize_files] *)

(** the header block of the destination [p], whose header flag is [flag]
    when the method is called, runs: not in append mode, or the flag is
    still set and nothing exists at [p] *)
Definition header_block_runs (self : CSVWriter) (w : world) (flag : bool)
    (p : string) : bool :=
  negb (truthy (append_mode self)) || (flag && negb (present w p)).

(** *** The three methods over any [open] and any [write]

    The bodies of the three [try] blocks and their handlers, with the two
    file operations left open: [open_] and [write_] may raise any exception
    in any state.  Run on [open_file] and [file_write] these are the three
    methods above. *)

Section Guarded.

Variable open_ : string -> file_mode -> M world unit.
Variable write_ : string -> string -> M world unit.

Definition initialize_files_body : M (CSVWriter * world) bool :=
  let! self := get_fst in
  let mode := if truthy (append_mode self) then ModeA else ModeW in
  let! skip_data := on_snd (append_and_exists self (data_path self)) in
  (if skip_data then modify_fst (set_write_header_data false) else ret tt) ;;
  let! skip_hazard := on_snd (append_and_exists self (hazard_path self)) in
  (if skip_hazard then modify_fst (set_write_header_hazard false) else ret tt) ;;
  let! self := get_fst in
  (if negb (truthy (append_mode self)) || write_header_data self then
     on_snd (open_ (data_path self) ModeW ;;
             write_ (data_path self) (Csv.writerow data_header))
   else ret tt) ;;
  (if negb (truthy (append_mode self)) || write_header_hazard self then
     on_snd (open_ (hazard_path self) ModeW ;;
             write_ (hazard_path self) (Csv.writerow hazard_header))
   else ret tt) ;;
  ret true.

Definition initialize_files_handler (e : exn) : M (CSVWriter * world) bool :=
  on_snd (print "Failed to initialize CSV files: " e) ;;
  ret false.

Definition initialize_files_with : M (CSVWriter * world) bool :=
  try_except initialize_files_body initialize_files_handler.

Definition write_data_body (self : CSVWriter) (sensor_data : list pydict)
    (simulation_state : pydict) : M world unit :=
  let timestamp := dict_get simulation_state "simulation_time" (PyInt 0) in
  let step := dict_get simulation_state "step" (PyInt 0) in
  open_ (data_path self) ModeA ;;
  for_each sensor_data
    (fun data =>
       let! row := lift (sample_row timestamp step data) in
       write_ (data_path self) (Csv.writerow row)).

Definition write_data_handler (e : exn) : M world unit :=
  print "Error writing data: " e.

Definition write_data_with (self : CSVWriter) (sensor_data : list pydict)
    (simulation_state : pydict) : M world unit :=
  match sensor_data with
  | [] => ret tt
  | _ :: _ =>
      try_except (write_data_body self sensor_data simulation_state)
        write_data_handler
  end.

Definition write_hazard_event_body (self : CSVWriter) (hazard_event : pydict)
    : M world unit :=
  open_ (hazard_path self) ModeA ;;
  write_ (hazard_path self) (Csv.writerow (hazard_row hazard_event)).

Definition write_hazard_event_handler (e : exn) : M world unit :=
  print "Error writing hazard event: " e.

Definition write_hazard_event_with (self : CSVWriter) (hazard_event : pydict)
    : M world unit :=
  try_except (write_hazard_event_body self hazard_event)
    write_hazard_event_handler.

End Guarded.

(** a write that fails whatever the file and the text *)
Definition write_refused (p : string) (text : string) : M world unit :=
  raise (OSError EACCES p).

(** ** Properties *)

(** *** The file system *)

Lemma with_file_twice (p t1 t2 : string) (w : world) :
  with_file p t2 (with_file p t1 w) = with_file p t2 w.
Proof.
  unfold with_file, set_fs; simpl. by rewrite insert_insert_eq.
Qed.

Lemma lookup_with_file (p text : string) (w : world) (q : string) :
  fs (with_file p text w) !! q =
  if decide (p = q) then Some (File text) else fs w !! q.
Proof.
  unfold with_file, set_fs; simpl. apply lookup_insert.
Qed.

Lemma lookup_with_file_eq (p text : string) (w : world) :
  fs (with_file p text w) !! p = Some (File text).
Proof.
  rewrite lookup_with_file. by destruct (decide (p = p)).
Qed.

Lemma lookup_with_file_ne (p text : string) (w : world) (q : string) :
  p <> q -> fs (with_file p text w) !! q = fs w !! q.
Proof.
  intros Hne. rewrite lookup_with_file. by destruct (decide (p = q)).
Qed.

Lemma present_with_file (p text : string) (w : world) :
  present (with_file p text w) p = true.
Proof.
  unfold present. rewrite lookup_with_file.
  destruct (decide (p = p)); [|done]. by apply bool_decide_eq_true_2.
Qed.

(** opening for writing and writing one text: either [open] raises and
    nothing changes, or the file ends up holding exactly that text *)
Lemma write_new_file (p text : string) (w : world) :
  (open_file p ModeW ;; file_write p text) w =
  match open_error w p with
  | Some e => (Raise e, w)
  | None => (Return tt, with_file p text w)
  end.
Proof.
  unfold bind, open_file. destruct (open_error w p) as [e|]; [done|].
  unfold file_write, set_fs; simpl. rewrite lookup_insert_eq.
  simpl. unfold with_file, set_fs; simpl. by rewrite insert_insert_eq.
Qed.

Lemma run_header_block (self0 : CSVWriter) (go : bool) (p : string)
    (header : list pyval) (w : world) :
  (if go then on_snd (open_file p ModeW ;; file_write p (Csv.writerow header))
   else ret tt) (self0, w) =
  match header_step go p header w with
  | inl e => (Raise e, (self0, w))
  | inr w' => (Return tt, (self0, w'))
  end.
Proof.
  unfold header_step. destruct go; [|done].
  unfold on_snd; simpl. rewrite write_new_file.
  by destruct (open_error w p).
Qed.

Lemma run_header_blocks (s0 : CSVWriter) (w : world) :
  (let! self0 := get_fst in
   (if negb (truthy (append_mode self0)) || write_header_data self0 then
      on_snd (open_file (data_path self0) ModeW ;;
              file_write (data_path self0) (Csv.writerow data_header))
    else ret tt) ;;
   (if negb (truthy (append_mode self0)) || write_header_hazard self0 then
      on_snd (open_file (hazard_path self0) ModeW ;;
              file_write (hazard_path self0) (Csv.writerow hazard_header))
    else ret tt) ;;
   ret true) (s0, w) =
  match header_step (negb (truthy (append_mode s0)) || write_header_data s0)
          (data_path s0) data_header w with
  | inl e => (Raise e, (s0, w))
  | inr w1 =>
      match header_step (negb (truthy (append_mode s0)) || write_header_hazard s0)
              (hazard_path s0) hazard_header w1 with
      | inl e => (Raise e, (s0, w1))
      | inr w2 => (Return true, (s0, w2))
      end
  end.
Proof.
  unfold bind at 1. unfold get_fst. cbn [fst].
  unfold bind at 1. rewrite run_header_block.
  destruct (header_step _ (data_path s0) _ w) as [e|w1]; [done|].
  unfold bind at 1. rewrite run_header_block.
  by destruct (header_step _ (hazard_path s0) _ w1).
Qed.

(** the fields the existence checks leave alone *)
Lemma after_checks_fields (self : CSVWriter) (w : world) :
  config (after_checks self w) = config self /\
  output_dir (after_checks self w) = output_dir self /\
  data_path (after_checks self w) = data_path self /\
  hazard_path (after_checks self w) = hazard_path self /\
  append_mode (after_checks self w) = append_mode self.
Proof.
  unfold after_checks.
  destruct (truthy (append_mode self) && present w (data_path self));
    destruct (truthy (append_mode self) && present w (hazard_path self));
    by repeat split.
Qed.

Lemma run_cond_modify {S1 S2 : Type} (b : bool) (f : S1 -> S1) (s : S1) (w : S2) :
  (if b then modify_fst f else ret tt) (s, w) =
  (Return tt, (if b then f s else s, w)).
Proof. by destruct b. Qed.

Lemma run_append_and_exists (self0 self : CSVWriter) (p : string) (w : world) :
  on_snd (append_and_exists self p) (self0, w) =
  (Return (truthy (append_mode self) && present w p), (self0, w)).
Proof.
  unfold on_snd, append_and_exists; cbn [fst snd].
  by destruct (truthy (append_mode self)).
Qed.

(** the code of [initialize_files] computes [initialize_files_result] and
    never raises *)
Lemma initialize_files_eq (self : CSVWriter) (w : world) :
  initialize_files (self, w) =
  let '(b, st) := initialize_files_result self w in (Return b, st).
Proof.
  destruct (after_checks_fields self w) as (_ & _ & Hd & Hh & Ha).
  unfold initialize_files, initialize_files_result, try_except.
  unfold bind at 1. unfold get_fst at 1. cbn [fst].
  unfold bind at 1. rewrite run_append_and_exists.
  unfold bind at 1. rewrite run_cond_modify.
  unfold bind at 1. rewrite run_append_and_exists.
  unfold bind at 1. rewrite run_cond_modify.
  rewrite run_header_blocks.
  change (if truthy (append_mode self) && present w (hazard_path self)
          then set_write_header_hazard false
                 (if truthy (append_mode self) && present w (data_path self)
                  then set_write_header_data false self else self)
          else (if truthy (append_mode self) && present w (data_path self)
                then set_write_header_data false self else self))
    with (after_checks self w).
  rewrite Hd, Hh, Ha.
  destruct (header_step _ (data_path self) _ w) as [e|w1]; [done|].
  by destruct (header_step _ (hazard_path self) _ w1).
Qed.

(** *** Text *)

Lemma append_cons (a : ascii) (s t : string) :
  String a s +:+ t = String a (s +:+ t).
Proof. reflexivity. Qed.

Lemma append_empty_r (s : string) : s +:+ EmptyString = s.
Proof.
  induction s as [|a s IH]; [reflexivity|].
  by rewrite append_cons, IH.
Qed.

Lemma append_assoc (s t u : string) : (s +:+ t) +:+ u = s +:+ (t +:+ u).
Proof.
  induction s as [|a s IH]; [reflexivity|].
  by rewrite !append_cons, IH.
Qed.

(** *** Appending to a file *)

Lemma with_file_same (p c : string) (w : world) :
  fs w !! p = Some (File c) -> with_file p c w = w.
Proof.
  intros H. destruct w as [f d o]. unfold with_file, set_fs; simpl in *.
  by rewrite insert_id.
Qed.

Lemma open_error_not_dir (w : world) (p : string) :
  open_error w p = None -> fs w !! p <> Some Dir.
Proof.
  unfold open_error. destruct (parent_error w p); [done|].
  destruct (fs w !! p) as [[|c]|]; done.
Qed.

(** after a successful [open] in mode [a] there is a file at [p], holding
    what it held before *)
Lemma open_append (p : string) (w : world) :
  open_error w p = None ->
  exists w', open_file p ModeA w = (Return tt, w') /\
             fs w' !! p = Some (File (content_of w p)) /\
             with_file p (content_of w p) w = w'.
Proof.
  intros Hok. pose proof (open_error_not_dir w p Hok) as Hnd.
  unfold open_file. rewrite Hok. unfold content_of.
  destruct (fs w !! p) as [[|c]|] eqn:E; [done| |].
  - exists w. repeat split; [done|]. by apply with_file_same.
  - eexists. repeat split. apply lookup_with_file_eq.
Qed.

Lemma write_at_end (p c text : string) (w : world) :
  fs w !! p = Some (File c) ->
  file_write p text w = (Return tt, with_file p (c +:+ text) w).
Proof.
  intros H. unfold file_write. by rewrite H.
Qed.

(** the loop of [write_data] over an open file: the rows that format are
    written in order, and the first failure ends the loop *)
Lemma run_sample_loop (p : string) (timestamp step : pyval)
    (records : list pydict) (c : string) (w : world) :
  fs w !! p = Some (File c) ->
  for_each records
    (fun data =>
       let! row := lift (sample_row timestamp step data) in
       file_write p (Csv.writerow row)) w =
  let '(rows, err) := sample_rows timestamp step records in
  (match err with
   | None => Return tt
   | Some e => Raise e
   end, with_file p (c +:+ rows_text rows) w).
Proof.
  revert c w. induction records as [|data rest IH]; intros c w Hc.
  - simpl. unfold ret. by rewrite append_empty_r, (with_file_same p c w Hc).
  - cbn [for_each sample_rows]. unfold bind at 1. unfold bind at 1.
    destruct (sample_row timestamp step data) as [e|row]; cbn [lift].
    + unfold raise. cbn [rows_text fold_right].
      by rewrite append_empty_r, (with_file_same p c w Hc).
    + unfold ret. rewrite (write_at_end p c _ w Hc).
      rewrite (IH (c +:+ Csv.writerow row) _ (lookup_with_file_eq _ _ _)).
      destruct (sample_rows timestamp step rest) as [rows err].
      cbn [rows_text fold_right]. fold (rows_text rows).
      by rewrite with_file_twice, append_assoc.
Qed.

(** the code of [write_data] computes [write_data_result] and never
    raises *)
Lemma write_data_eq (self : CSVWriter) (sensor_data : list pydict)
    (simulation_state : pydict) (w : world) :
  write_data self sensor_data simulation_state w =
  (Return tt, write_data_result self sensor_data simulation_state w).
Proof.
  unfold write_data, write_data_result.
  destruct sensor_data as [|d0 rest]; [reflexivity|].
  unfold try_except. unfold bind at 1.
  destruct (open_error w (data_path self)) as [e|] eqn:Hopen.
  - unfold open_file. rewrite Hopen. reflexivity.
  - destruct (open_append _ _ Hopen) as (w' & -> & Hfile & Hw').
    rewrite (run_sample_loop _ _ _ _ _ _ Hfile).
    destruct (sample_rows _ _ (d0 :: rest)) as [rows err].
    unfold appended. rewrite <- Hw', with_file_twice.
    by destruct err.
Qed.

(** the code of [write_hazard_event] computes [write_hazard_event_result]
    and never raises *)
Lemma write_hazard_event_eq (self : CSVWriter) (hazard_event : pydict)
    (w : world) :
  write_hazard_event self hazard_event w =
  (Return tt, write_hazard_event_result self hazard_event w).
Proof.
  unfold write_hazard_event, write_hazard_event_result, try_except.
  unfold bind at 1.
  destruct (open_error w (hazard_path self)) as [e|] eqn:Hopen.
  - unfold open_file. rewrite Hopen. reflexivity.
  - destruct (open_append _ _ Hopen) as (w' & -> & Hfile & Hw').
    rewrite (write_at_end _ _ _ _ Hfile).
    unfold appended. by rewrite <- Hw', with_file_twice.
Qed.

(** *** The constructor *)

Lemma run_mkdir_output_dir (w : world) :
  present w "output_data" = false ->
  makedirs "output_data" w =
  match ensure_output_dir w with
  | inl e => (Raise e, w)
  | inr w' => (Return tt, w')
  end.
Proof.
  intros Hp. unfold ensure_output_dir. rewrite Hp.
  assert (Hnone : fs w !! "output_data" = None).
  { unfold present in Hp. apply bool_decide_eq_false in Hp.
    destruct (fs w !! "output_data") eqn:E; [|done].
    exfalso. apply Hp. by eexists. }
  unfold makedirs.
  change (String.length "output_data") with 11%nat.
  cbn [makedirs_aux].
  change (dirname "output_data") with EmptyString.
  cbn [String.eqb orb].
  unfold bind at 1. unfold ret at 1.
  unfold try_except, mkdir. rewrite Hnone.
  unfold parent_error. change (dirname "output_data") with EmptyString.
  cbn [String.eqb].
  destruct (bool_decide ("output_data" ∈ denied w)); [|done].
  unfold bind, path_isdir. rewrite Hnone. reflexivity.
Qed.

(** the code of the constructor: the directory step, then the two
    configuration lookups, then the object *)
Lemma init_eq (cfg : pyval) (w : world) :
  __init__ cfg w =
  match ensure_output_dir w with
  | inl e => (Raise e, w)
  | inr w' =>
      match subscript cfg "simulation" with
      | inl e => (Raise e, w')
      | inr simulation =>
          match method_get simulation "csv_append_mode" (PyBool true) with
          | inl e => (Raise e, w')
          | inr mode => (Return (new_writer cfg mode), w')
          end
      end
  end.
Proof.
  unfold __init__. unfold bind at 1.
  unfold path_exists at 1. fold (present w "output_data").
  destruct (present w "output_data") eqn:Hp; cbn [negb].
  - unfold ensure_output_dir. rewrite Hp.
    unfold bind at 1. unfold ret at 1.
    unfold bind at 1.
    destruct (subscript cfg "simulation") as [e|sim]; [reflexivity|].
    cbn [lift]. unfold ret at 1. unfold bind at 1.
    destruct (method_get sim "csv_append_mode" (PyBool true)); reflexivity.
  - unfold bind at 1. rewrite (run_mkdir_output_dir w Hp).
    destruct (ensure_output_dir w) as [e|w']; [reflexivity|].
    unfold bind at 1.
    destruct (subscript cfg "simulation") as [e|sim]; [reflexivity|].
    cbn [lift]. unfold ret at 1. unfold bind at 1.
    destruct (method_get sim "csv_append_mode" (PyBool true)); reflexivity.
Qed.

Lemma ensure_output_dir_present (w w' : world) :
  ensure_output_dir w = inr w' ->
  present w' "output_data" = true /\
  (present w "output_data" = false -> fs w' !! "output_data" = Some Dir) /\
  (present w "output_data" = true -> w' = w) /\
  (forall q, q <> "output_data" -> fs w' !! q = fs w !! q).
Proof.
  unfold ensure_output_dir.
  destruct (present w "output_data") eqn:Hp.
  - intros [= <-]. by repeat split.
  - destruct (bool_decide ("output_data" ∈ denied w)); [done|].
    intros [= <-]. unfold present, set_fs; simpl.
    rewrite lookup_insert_eq. repeat split; try done.
    intros q Hq. by rewrite lookup_insert_ne.
Qed.

Lemma init_returns (cfg : pyval) (w : world) (s : CSVWriter) (w1 : world) :
  __init__ cfg w = (Return s, w1) ->
  ensure_output_dir w = inr w1 /\
  exists simulation mode,
    subscript cfg "simulation" = inr simulation /\
    method_get simulation "csv_append_mode" (PyBool true) = inr mode /\
    s = new_writer cfg mode.
Proof.
  rewrite init_eq.
  destruct (ensure_output_dir w) as [e|w']; [done|].
  destruct (subscript cfg "simulation") as [e|sim]; [done|].
  destruct (method_get sim "csv_append_mode" (PyBool true)) as [e|mode] eqn:Hm;
    [done|].
  intros [= <- <-]. split; [done|]. by exists sim, mode.
Qed.

(** *** Frame facts *)

Lemma header_step_frame (go : bool) (p : string) (header : list pyval)
    (w w' : world) :
  header_step go p header w = inr w' ->
  (forall q, q <> p -> fs w' !! q = fs w !! q) /\
  denied w' = denied w /\ stdout w' = stdout w.
Proof.
  unfold header_step. destruct go.
  - destruct (open_error w p); [done|]. intros [= <-].
    repeat split. intros q Hq. by apply lookup_with_file_ne.
  - by intros [= <-].
Qed.

Lemma appended_frame (p text : string) (w : world) :
  (forall q, q <> p -> fs (appended p text w) !! q = fs w !! q) /\
  content_of (appended p text w) p = content_of w p +:+ text /\
  denied (appended p text w) = denied w /\
  stdout (appended p text w) = stdout w.
Proof.
  unfold appended. repeat split.
  - intros q Hq. by apply lookup_with_file_ne.
  - unfold content_of at 1. by rewrite lookup_with_file_eq.
Qed.

(** [initialize_files] returns, and touches no entry other than the two
    destinations *)
Lemma initialize_files_frame (self : CSVWriter) (w : world) :
  exists b s' w',
    initialize_files (self, w) = (Return b, (s', w')) /\
    s' = after_checks self w /\
    forall q, q <> data_path self -> q <> hazard_path self ->
              fs w' !! q = fs w !! q.
Proof.
  rewrite initialize_files_eq. unfold initialize_files_result.
  destruct (header_step _ (data_path self) _ w) as [e|w1] eqn:H1.
  - by eexists _, _, _.
  - destruct (header_step_frame _ _ _ _ _ H1) as (F1 & _ & _).
    destruct (header_step _ (hazard_path self) _ w1) as [e|w2] eqn:H2.
    + eexists _, _, _. repeat split. intros q Hd Hh. simpl. by apply F1.
    + destruct (header_step_frame _ _ _ _ _ H2) as (F2 & _ & _).
      eexists _, _, _. repeat split. intros q Hd Hh.
      rewrite F2 by done. by apply F1.
Qed.

(** [write_data] touches no entry other than the samples file *)
Lemma write_data_frame (self : CSVWriter) (sensor_data : list pydict)
    (simulation_state : pydict) (w : world) (q : string) :
  q <> data_path self ->
  fs (write_data_result self sensor_data simulation_state w) !! q = fs w !! q.
Proof.
  intros Hq. unfold write_data_result.
  destruct sensor_data as [|d0 rest]; [done|].
  destruct (open_error w (data_path self)); [done|].
  destruct (sample_rows _ _ (d0 :: rest)) as [rows [e|]]; simpl;
    by apply lookup_with_file_ne.
Qed.

(** [write_hazard_event] touches no entry other than the events file *)
Lemma write_hazard_event_frame (self : CSVWriter) (hazard_event : pydict)
    (w : world) (q : string) :
  q <> hazard_path self ->
  fs (write_hazard_event_result self hazard_event w) !! q = fs w !! q.
Proof.
  intros Hq. unfold write_hazard_event_result.
  destruct (open_error w (hazard_path self)); [done|].
  by apply lookup_with_file_ne.
Qed.

Lemma standard_paths_eq (self : CSVWriter) :
  standard_paths self = true ->
  output_dir self = "output_data" /\
  data_path self = "output_data/simulation_data.csv" /\
  hazard_path self = "output_data/hazard_events.csv".
Proof.
  unfold standard_paths. intros H.
  apply andb_prop in H as [H H3]. apply andb_prop in H as [H1 H2].
  by rewrite String.eqb_eq in H1, H2, H3.
Qed.

Lemma new_writer_standard (cfg mode : pyval) :
  standard_paths (new_writer cfg mode) = true.
Proof. reflexivity. Qed.

(** the existence checks keep the paths, so every later state of a
    constructed object has the standard ones *)
Lemma after_checks_standard (self : CSVWriter) (w : world) :
  standard_paths self = true -> standard_paths (after_checks self w) = true.
Proof.
  destruct (after_checks_fields self w) as (_ & Ho & Hd & Hh & _).
  unfold standard_paths. by rewrite Ho, Hd, Hh.
Qed.

(** *** Claims about the constructor and the directory *)

(** C1 (as stated) fails: called where the output directory is missing,
    [initialize_files] returns [False] and the directory is still missing. *)
Lemma C1_initialize_does_not_make_directory :
  __init__ config_default world_with_dir = (Return writer_default, world_with_dir) /\
  exists w',
    initialize_files (writer_default, empty_world) =
      (Return false, (writer_default, w')) /\
    fs empty_world !! output_dir writer_default = None /\
    fs w' !! output_dir writer_default = None.
Proof.
  split; [vm_compute; reflexivity|].
  eexists. split; [vm_compute; reflexivity|].
  split; vm_compute; reflexivity.
Qed.

(** C9: when the simulation section of the configuration has no
    [csv_append_mode] key, the constructed object has [append_mode = True]:
    every object the constructor returns has it, and the constructor does
    return one whenever the output directory is there or can be made. *)
Theorem C9_append_mode_defaults_to_true
    (d sim : pydict) (w : world) :
  dict_lookup "simulation" d = Some (PyDict sim) ->
  dict_lookup "csv_append_mode" sim = None ->
  (forall s w', __init__ (PyDict d) w = (Return s, w') ->
                append_mode s = PyBool true) /\
  (present w "output_data" = true \/ "output_data" ∉ denied w ->
   exists s w', __init__ (PyDict d) w = (Return s, w') /\
                append_mode s = PyBool true /\
                truthy (append_mode s) = true).
Proof.
  intros Hsim Hkey.
  assert (Hsub : subscript (PyDict d) "simulation" = inr (PyDict sim)).
  { unfold subscript. by rewrite Hsim. }
  assert (Hget : method_get (PyDict sim) "csv_append_mode" (PyBool true) =
                 inr (PyBool true)).
  { unfold method_get, dict_get. by rewrite Hkey. }
  split.
  - intros s w' Hinit.
    destruct (init_returns _ _ _ _ Hinit) as (_ & sim' & mode & Hs & Hm & ->).
    rewrite Hsub in Hs. injection Hs as <-.
    rewrite Hget in Hm. by injection Hm as <-.
  - intros Hdir. rewrite init_eq, Hsub, Hget.
    unfold ensure_output_dir.
    destruct (present w "output_data") eqn:Hp.
    + by eexists _, _.
    + destruct Hdir as [Hdir|Hdir]; [done|].
      rewrite bool_decide_eq_false_2 by done. by eexists _, _.
Qed.

Lemma C9_append_mode_defaults_to_true_witness :
  let d := [(PyStr "simulation", PyDict [])] in
  dict_lookup "simulation" d = Some (PyDict []) /\
  dict_lookup "csv_append_mode" [] = None /\
  (forall s w', __init__ (PyDict d) empty_world = (Return s, w') ->
                append_mode s = PyBool true) /\
  (present empty_world "output_data" = true \/
   "output_data" ∉ denied empty_world ->
   exists s w', __init__ (PyDict d) empty_world = (Return s, w') /\
                append_mode s = PyBool true /\
                truthy (append_mode s) = true).
Proof.
  intros d.
  assert (H1 : dict_lookup "simulation" d = Some (PyDict [])) by reflexivity.
  assert (H2 : dict_lookup "csv_append_mode" [] = None) by reflexivity.
  split; [exact H1|]. split; [exact H2|].
  exact (C9_append_mode_defaults_to_true d [] empty_world H1 H2).
Defined.

(** *** Claims about the writing methods *)

(** C4: [write_data] with an empty list of records returns at once: no
    exception, and the world (the samples file, every other entry, the
    console) is left as it was. *)
Theorem C4_empty_batch_is_noop
    (self : CSVWriter) (simulation_state : pydict) (w : world) :
  write_data self [] simulation_state w = (Return tt, w) /\
  content_of (snd (write_data self [] simulation_state w)) (data_path self) =
    content_of w (data_path self).
Proof. split; reflexivity. Qed.

(** C10: the samples path and the events path of a constructed object
    differ; [write_data] changes no entry but the samples file and
    [write_hazard_event] no entry but the events file, whatever the
    input. *)
Theorem C10_destinations_disjoint
    (self : CSVWriter) (sensor_data : list pydict)
    (simulation_state hazard_event : pydict) (w : world) :
  standard_paths self = true ->
  data_path self <> hazard_path self /\
  (exists w',
     write_data self sensor_data simulation_state w = (Return tt, w') /\
     fs w' !! hazard_path self = fs w !! hazard_path self /\
     forall q, q <> data_path self -> fs w' !! q = fs w !! q) /\
  (exists w',
     write_hazard_event self hazard_event w = (Return tt, w') /\
     fs w' !! data_path self = fs w !! data_path self /\
     forall q, q <> hazard_path self -> fs w' !! q = fs w !! q).
Proof.
  intros Hstd. destruct (standard_paths_eq self Hstd) as (_ & Hd & Hh).
  assert (Hne : data_path self <> hazard_path self).
  { rewrite Hd, Hh. discriminate. }
  split; [exact Hne|]. split.
  - exists (write_data_result self sensor_data simulation_state w).
    split; [apply write_data_eq|]. split.
    + apply write_data_frame. congruence.
    + intros q Hq. by apply write_data_frame.
  - exists (write_hazard_event_result self hazard_event w).
    split; [apply write_hazard_event_eq|]. split.
    + apply write_hazard_event_frame. congruence.
    + intros q Hq. by apply write_hazard_event_frame.
Qed.

Lemma C10_destinations_disjoint_witness :
  let batch := [[(PyStr "id", PyStr "veh0")]] in
  let event := [(PyStr "hazard_name", PyStr "pothole")] in
  standard_paths writer_default = true /\
  data_path writer_default <> hazard_path writer_default /\
  (exists w',
     write_data writer_default batch [] world_with_dir = (Return tt, w') /\
     fs w' !! hazard_path writer_default =
       fs world_with_dir !! hazard_path writer_default /\
     forall q, q <> data_path writer_default ->
               fs w' !! q = fs world_with_dir !! q) /\
  (exists w',
     write_hazard_event writer_default event world_with_dir = (Return tt, w') /\
     fs w' !! data_path writer_default =
       fs world_with_dir !! data_path writer_default /\
     forall q, q <> hazard_path writer_default ->
               fs w' !! q = fs world_with_dir !! q).
Proof.
  intros batch event.
  assert (H : standard_paths writer_default = true) by reflexivity.
  split; [exact H|].
  exact (C10_destinations_disjoint writer_default batch [] event
           world_with_dir H).
Defined.

Lemma plain_cell_get (data : pydict) (key : string) (default : pyval) :
  plain_cell data key default (dict_get data key default).
Proof.
  unfold plain_cell, dict_get. by destruct (dict_lookup key data).
Qed.

(** C7: when the events file can be opened, [write_hazard_event] adds to
    its end exactly one row made of the timestamp of the event (0 when
    absent), its name (["unknown"] when absent) and [str] of its metadata
    (of the empty dict when absent), and changes nothing else; an event
    named pothole with timestamp 12 and no metadata gives the row
    [12,pothole,{}]. *)
Theorem C7_event_row
    (self : CSVWriter) (hazard_event : pydict) (w : world) :
  open_error w (hazard_path self) = None ->
  (exists timestamp name metadata w',
     plain_cell hazard_event "timestamp" (PyInt 0) timestamp /\
     plain_cell hazard_event "hazard_name" (PyStr "unknown") name /\
     plain_cell hazard_event "metadata" (PyDict []) metadata /\
     write_hazard_event self hazard_event w = (Return tt, w') /\
     content_of w' (hazard_path self) =
       content_of w (hazard_path self) +:+
       Csv.writerow [timestamp; name; PyStr (py_str metadata)] /\
     (forall q, q <> hazard_path self -> fs w' !! q = fs w !! q) /\
     stdout w' = stdout w) /\
  Csv.writerow
    (hazard_row [(PyStr "hazard_name", PyStr "pothole");
                 (PyStr "timestamp", PyInt 12)]) =
    "12,pothole,{}" +:+ CRLF.
Proof.
  intros Hopen. split; [|vm_compute; reflexivity].
  exists (dict_get hazard_event "timestamp" (PyInt 0)),
         (dict_get hazard_event "hazard_name" (PyStr "unknown")),
         (dict_get hazard_event "metadata" (PyDict [])).
  exists (write_hazard_event_result self hazard_event w).
  split; [apply plain_cell_get|]. split; [apply plain_cell_get|].
  split; [apply plain_cell_get|]. split; [apply write_hazard_event_eq|].
  split; [|split].
  - unfold write_hazard_event_result. rewrite Hopen.
    apply (appended_frame (hazard_path self)).
  - intros q Hq. by apply write_hazard_event_frame.
  - unfold write_hazard_event_result. rewrite Hopen. reflexivity.
Qed.

Lemma C7_event_row_witness :
  let event := [(PyStr "hazard_name", PyStr "pothole");
                (PyStr "timestamp", PyInt 12)] in
  open_error world_with_dir (hazard_path writer_default) = None /\
  (exists timestamp name metadata w',
     plain_cell event "timestamp" (PyInt 0) timestamp /\
     plain_cell event "hazard_name" (PyStr "unknown") name /\
     plain_cell event "metadata" (PyDict []) metadata /\
     write_hazard_event writer_default event world_with_dir = (Return tt, w') /\
     content_of w' (hazard_path writer_default) =
       content_of world_with_dir (hazard_path writer_default) +:+
       Csv.writerow [timestamp; name; PyStr (py_str metadata)] /\
     (forall q, q <> hazard_path writer_default ->
                fs w' !! q = fs world_with_dir !! q) /\
     stdout w' = stdout world_with_dir) /\
  Csv.writerow (hazard_row event) = "12,pothole,{}" +:+ CRLF.
Proof.
  intros event.
  assert (H : open_error world_with_dir (hazard_path writer_default) = None)
    by (vm_compute; reflexivity).
  split; [exact H|].
  exact (C7_event_row writer_default event world_with_dir H).
Defined.

(** *** Decimal text *)

Lemma chars_append (s t : string) : chars (s +:+ t) = (chars s ++ chars t)%list.
Proof.
  unfold chars. induction s as [|a s IH]; [reflexivity|].
  rewrite append_cons. simpl. by rewrite IH.
Qed.

Lemma all_digits_append (s t : string) :
  all_digits (s +:+ t) = all_digits s && all_digits t.
Proof.
  unfold all_digits. by rewrite chars_append, forallb_app.
Qed.












(** *** Conversion of an int to a float *)









(** *** Text with two decimals is written unquoted *)






(** the cells of a row that was built: the five formatted columns *)
Lemma sample_row_cells (timestamp step : pyval) (data : pydict)
    (cells : list pyval) :
  sample_row timestamp step data = inr cells ->
  exists x y speed acceleration angle,
    format_2f (dict_get data "x" (PyInt 0)) = inr x /\
    format_2f (dict_get data "y" (PyInt 0)) = inr y /\
    format_2f (dict_get data "speed" (PyInt 0)) = inr speed /\
    format_2f (dict_get data "acceleration" (PyInt 0)) = inr acceleration /\
    format_2f (dict_get data "angle" (PyInt 0)) = inr angle /\
    cells = [timestamp; step;
             dict_get data "id" (PyStr EmptyString);
             dict_get data "type" (PyStr EmptyString);
             PyStr x; PyStr y; PyStr speed; PyStr acceleration; PyStr angle;
             dict_get data "lane" (PyStr EmptyString);
             dict_get data "hazard_active" (PyBool false)].
Proof.
  unfold sample_row.
  destruct (format_2f (dict_get data "x" _)) as [|x]; [done|].
  destruct (format_2f (dict_get data "y" _)) as [|y]; [done|].
  destruct (format_2f (dict_get data "speed" _)) as [|sp]; [done|].
  destruct (format_2f (dict_get data "acceleration" _)) as [|ac]; [done|].
  destruct (format_2f (dict_get data "angle" _)) as [|an]; [done|].
  intros [= <-]. by exists x, y, sp, ac, an.
Qed.




(** *** Rows of a batch *)

Lemma numeric_cell_get (data : pydict) (key text : string) :
  format_2f (dict_get data key (PyInt 0)) = inr text ->
  numeric_cell data key (PyStr text).
Proof.
  unfold numeric_cell, dict_get. destruct (dict_lookup key data) as [v|].
  - intros H. by exists text.
  - intros H. vm_compute in H. by injection H as <-.
Qed.

(** the row the code builds for a record is the row the specification
    describes *)
Lemma sample_row_matches (timestamp step : pyval) (data : pydict)
    (cells : list pyval) :
  sample_row timestamp step data = inr cells ->
  row_matches timestamp step data cells.
Proof.
  intros Hrow.
  destruct (sample_row_cells _ _ _ _ Hrow)
    as (x & y & sp & ac & an & Hx & Hy & Hsp & Hac & Han & ->).
  unfold row_matches.
  eexists _, _, _, _, _, _, _, _, _. split; [reflexivity|].
  repeat (split; [first [apply plain_cell_get | by apply numeric_cell_get]|]).
  apply plain_cell_get.
Qed.

Lemma formattable_row (timestamp step : pyval) (data : pydict) :
  formattable data = true ->
  exists cells, sample_row timestamp step data = inr cells.
Proof.
  unfold formattable, numeric_columns. cbn [forallb snd].
  unfold sample_row.
  destruct (format_2f (dict_get data "x" _)); [done|].
  destruct (format_2f (dict_get data "y" _)); [done|].
  destruct (format_2f (dict_get data "speed" _)); [done|].
  destruct (format_2f (dict_get data "acceleration" _)); [done|].
  destruct (format_2f (dict_get data "angle" _)); [done|].
  intros _. by eexists.
Qed.

Lemma formattable_rows (timestamp step : pyval) (records : list pydict) :
  forallb formattable records = true ->
  exists rows,
    sample_rows timestamp step records = (rows, None) /\
    Forall2 (row_matches timestamp step) records rows.
Proof.
  induction records as [|data rest IH]; intros Hall.
  - exists []. split; [reflexivity|constructor].
  - cbn [forallb] in Hall. apply andb_prop in Hall as [Hd Hrest].
    destruct (formattable_row timestamp step data Hd) as [cells Hcells].
    destruct (IH Hrest) as (rows & Hrows & Hmatch).
    exists (cells :: rows). cbn [sample_rows]. rewrite Hcells, Hrows.
    split; [reflexivity|]. constructor; [|done].
    by apply sample_row_matches.
Qed.

(** C6 (amended): when the samples file can be opened and every record
    has, in each of x, y, speed, acceleration and angle, either nothing or
    a value the [.2f] format accepts, [write_data] adds to the end of the
    samples file exactly one row per record, in the order of the records;
    every row starts with the timestamp and the step of the context (0
    when absent), and a missing field is written as the empty string (id,
    type, lane), as [0.00] (the five numbers) or as [False]
    (hazard_active).  Nothing else changes and nothing is printed. *)
Theorem C6_one_row_per_record
    (self : CSVWriter) (sensor_data : list pydict)
    (simulation_state : pydict) (w : world) :
  sensor_data <> [] ->
  open_error w (data_path self) = None ->
  forallb formattable sensor_data = true ->
  let timestamp := dict_get simulation_state "simulation_time" (PyInt 0) in
  let step := dict_get simulation_state "step" (PyInt 0) in
  exists rows w',
    write_data self sensor_data simulation_state w = (Return tt, w') /\
    Forall2 (row_matches timestamp step) sensor_data rows /\
    content_of w' (data_path self) =
      content_of w (data_path self) +:+ rows_text rows /\
    (forall q, q <> data_path self -> fs w' !! q = fs w !! q) /\
    stdout w' = stdout w.
Proof.
  intros Hne Hopen Hall timestamp step.
  destruct (formattable_rows timestamp step sensor_data Hall)
    as (rows & Hrows & Hmatch).
  exists rows, (write_data_result self sensor_data simulation_state w).
  split; [apply write_data_eq|]. split; [exact Hmatch|].
  assert (Hres : write_data_result self sensor_data simulation_state w =
                 appended (data_path self) (rows_text rows) w).
  { unfold write_data_result. destruct sensor_data as [|d0 rest]; [done|].
    rewrite Hopen. fold timestamp step. by rewrite Hrows. }
  rewrite Hres.
  destruct (appended_frame (data_path self) (rows_text rows) w)
    as (Hf & Hc & _ & Ho).
  by repeat split.
Qed.

Lemma C6_one_row_per_record_witness :
  let records := [[(PyStr "id", PyStr "v1"); (PyStr "speed", PyInt 5)]; []] in
  let context := [(PyStr "simulation_time", PyInt 10); (PyStr "step", PyInt 3)] in
  open_error world_with_dir (data_path writer_default) = None /\
  exists rows w',
    write_data writer_default records context world_with_dir = (Return tt, w') /\
    Forall2 (row_matches (PyInt 10) (PyInt 3)) records rows /\
    content_of w' (data_path writer_default) =
      content_of world_with_dir (data_path writer_default) +:+ rows_text rows /\
    (forall q, q <> data_path writer_default ->
               fs w' !! q = fs world_with_dir !! q) /\
    stdout w' = stdout world_with_dir.
Proof.
  intros records context.
  assert (Hne : records <> []) by discriminate.
  assert (Hopen : open_error world_with_dir (data_path writer_default) = None)
    by (vm_compute; reflexivity).
  assert (Hall : forallb formattable records = true)
    by (vm_compute; reflexivity).
  split; [exact Hopen|].
  exact (C6_one_row_per_record writer_default records context world_with_dir
           Hne Hopen Hall).
Defined.

(** C6 (as stated) fails: of two records, the second holding [None] in x,
    only the first is written; the format of [None] raises [TypeError],
    which ends the loop and is printed. *)
Lemma C6_batch_cut_short :
  let records := [[(PyStr "id", PyStr "a")]; [(PyStr "x", PyNone)]] in
  exists w',
    write_data writer_default records [] world_with_dir = (Return tt, w') /\
    content_of w' (data_path writer_default) =
      "0,0,a,,0.00,0.00,0.00,0.00,0.00,,False" +:+ CRLF /\
    stdout w' = [{| message := data_message; cause := TypeError |}].
Proof.
  eexists. split; [vm_compute; reflexivity|].
  split; vm_compute; reflexivity.
Qed.

(** *** Exceptions *)

(** C8 (as stated) fails: where the output directory is missing and may
    not be made, the constructor raises the [OSError] of [os.makedirs]. *)
Lemma C8_constructor_raises :
  present world_read_only "output_data" = false /\
  __init__ config_default world_read_only =
    (Raise (OSError EACCES "output_data"), world_read_only).
Proof. split; vm_compute; reflexivity. Qed.

(** *** Headers *)

Lemma open_error_with_file (p text q : string) (w : world) :
  p <> q -> p <> dirname q ->
  open_error (with_file p text w) q = open_error w q.
Proof.
  intros Hq Hd. unfold open_error, parent_error.
  rewrite (lookup_with_file_ne p text w q Hq).
  destruct (String.eqb (dirname q) EmptyString); [reflexivity|].
  by rewrite (lookup_with_file_ne p text w (dirname q) Hd).
Qed.

Lemma present_with_file_ne (p text q : string) (w : world) :
  p <> q -> present (with_file p text w) q = present w q.
Proof.
  intros Hq. unfold present. by rewrite lookup_with_file_ne.
Qed.

Lemma after_checks_flags (self : CSVWriter) (w : world) :
  write_header_data (after_checks self w) =
    (if truthy (append_mode self) && present w (data_path self) then false
     else write_header_data self) /\
  write_header_hazard (after_checks self w) =
    (if truthy (append_mode self) && present w (hazard_path self) then false
     else write_header_hazard self).
Proof.
  unfold after_checks.
  destruct (truthy (append_mode self) && present w (data_path self));
    destruct (truthy (append_mode self) && present w (hazard_path self));
    by split.
Qed.

(** the facts about the standard paths that the header blocks rely on *)
Lemma standard_paths_apart (self : CSVWriter) :
  standard_paths self = true ->
  data_path self <> hazard_path self /\
  data_path self <> dirname (hazard_path self) /\
  hazard_path self <> dirname (data_path self).
Proof.
  intros Hstd. destruct (standard_paths_eq self Hstd) as (_ & -> & ->).
  change (dirname "output_data/hazard_events.csv") with "output_data".
  change (dirname "output_data/simulation_data.csv") with "output_data".
  by repeat split.
Qed.

(** with consistent flags, a header block runs exactly when the header is
    needed *)
Lemma header_block_runs_when_needed (self : CSVWriter) (w : world) :
  flags_consistent self w = true ->
  negb (truthy (append_mode self)) || write_header_data (after_checks self w) =
    header_needed self w (data_path self) /\
  negb (truthy (append_mode self)) || write_header_hazard (after_checks self w) =
    header_needed self w (hazard_path self).
Proof.
  unfold flags_consistent, header_needed. intros Hc.
  apply andb_prop in Hc as [Hd Hh].
  destruct (after_checks_flags self w) as [-> ->].
  destruct (truthy (append_mode self)); cbn [negb orb andb]; [|done].
  destruct (present w (data_path self)), (present w (hazard_path self));
    cbn [negb]; rewrite ?orb_false_r in *; by rewrite ?Hd, ?Hh.
Qed.

(** *** The header flags stay consistent *)

Lemma present_mono_header_step (go : bool) (p : string) (header : list pyval)
    (w w' : world) (q : string) :
  header_step go p header w = inr w' ->
  present w q = true -> present w' q = true.
Proof.
  unfold header_step. destruct go; [|by intros [= <-]].
  destruct (open_error w p); [done|]. intros [= <-] Hq.
  destruct (decide (p = q)) as [->|Hne].
  - apply present_with_file.
  - by rewrite present_with_file_ne.
Qed.

Lemma flags_consistent_new (cfg mode : pyval) (w : world) :
  flags_consistent (new_writer cfg mode) w = true.
Proof. reflexivity. Qed.

Lemma flags_consistent_after_checks (self : CSVWriter) (w : world) :
  flags_consistent self w = true ->
  flags_consistent (after_checks self w) w = true.
Proof.
  unfold flags_consistent.
  destruct (after_checks_fields self w) as (_ & _ & -> & -> & _).
  destruct (after_checks_flags self w) as [-> ->].
  intros Hc. apply andb_prop in Hc as [Hd Hh].
  destruct (truthy (append_mode self)); cbn [andb]; [|by rewrite Hd, Hh].
  destruct (present w (data_path self)), (present w (hazard_path self));
    rewrite ?orb_false_r, ?orb_true_r in *; by rewrite ?Hd, ?Hh.
Qed.

Lemma flags_consistent_mono (self : CSVWriter) (w w' : world) :
  (forall q, present w q = true -> present w' q = true) ->
  flags_consistent self w = true -> flags_consistent self w' = true.
Proof.
  unfold flags_consistent. intros Hm Hc.
  apply andb_prop in Hc as [Hd Hh].
  apply orb_prop in Hd as [Hd|Hd]; apply orb_prop in Hh as [Hh|Hh];
    rewrite ?Hd, ?Hh, ?(Hm _ Hd), ?(Hm _ Hh), ?orb_true_r; reflexivity.
Qed.

(** [initialize_files] keeps the header flags consistent with the files *)
Lemma flags_consistent_initialize_files (self : CSVWriter) (w : world) :
  flags_consistent self w = true ->
  exists b s' w',
    initialize_files (self, w) = (Return b, (s', w')) /\
    flags_consistent s' w' = true.
Proof.
  intros Hc. apply flags_consistent_after_checks in Hc.
  rewrite initialize_files_eq. unfold initialize_files_result.
  destruct (header_step _ (data_path self) _ w) as [e|w1] eqn:H1.
  - by eexists _, _, _.
  - assert (Hc1 : flags_consistent (after_checks self w) w1 = true).
    { apply (flags_consistent_mono _ w); [|done].
      intros q. by apply (present_mono_header_step _ _ _ _ _ _ H1). }
    destruct (header_step _ (hazard_path self) _ w1) as [e|w2] eqn:H2.
    + by eexists _, _, _.
    + eexists _, _, _. split; [reflexivity|].
      apply (flags_consistent_mono _ w1); [|done].
      intros q. by apply (present_mono_header_step _ _ _ _ _ _ H2).
Qed.

(** the writing methods keep them consistent too: no file is removed *)
Lemma flags_consistent_writes (self : CSVWriter) (w : world)
    (sensor_data : list pydict) (simulation_state hazard_event : pydict) :
  flags_consistent self w = true ->
  flags_consistent self
    (write_data_result self sensor_data simulation_state w) = true /\
  flags_consistent self (write_hazard_event_result self hazard_event w) = true.
Proof.
  intros Hc.
  assert (Happ : forall p text q,
            present w q = true -> present (appended p text w) q = true).
  { intros p text q Hq. unfold appended.
    destruct (decide (p = q)) as [->|Hne].
    - apply present_with_file.
    - by rewrite present_with_file_ne. }
  split.
  - unfold write_data_result. destruct sensor_data as [|d0 rest]; [done|].
    destruct (open_error w (data_path self)); [done|].
    destruct (sample_rows _ _ (d0 :: rest)) as [rows [e|]];
      apply (flags_consistent_mono _ w); try done; intros q; apply Happ.
  - unfold write_hazard_event_result.
    destruct (open_error w (hazard_path self)); [done|].
    apply (flags_consistent_mono _ w); [|done]. intros q. apply Happ.
Qed.

Lemma header_step_inl (go : bool) (p : string) (header : list pyval)
    (w : world) (e : exn) :
  header_step go p header w = inl e -> go = true /\ open_error w p = Some e.
Proof.
  unfold header_step. destruct go; [|done].
  destruct (open_error w p); [|done]. by intros [= <-].
Qed.

Lemma header_step_inr (go : bool) (p : string) (header : list pyval)
    (w w' : world) :
  header_step go p header w = inr w' ->
  (go = true /\ open_error w p = None /\
   w' = with_file p (Csv.writerow header) w) \/
  (go = false /\ w' = w).
Proof.
  unfold header_step. destruct go; [|intros [= <-]; by right].
  destruct (open_error w p); [done|]. intros [= <-]. by left.
Qed.

Lemma open_error_logged (msg : string) (e : exn) (w : world) (p : string) :
  open_error (logged msg e w) p = open_error w p.
Proof. reflexivity. Qed.

Lemma present_logged (msg : string) (e : exn) (w : world) (p : string) :
  present (logged msg e w) p = present w p.
Proof. reflexivity. Qed.

(** a header block in append mode that went through: afterwards its flag
    is cleared or its destination exists, an existing destination was left
    alone, and no other entry changed *)
Lemma header_step_append (flag : bool) (p : string) (header : list pyval)
    (w w' : world) :
  header_step (if present w p then false else flag) p header w = inr w' ->
  (if present w' p then false else (if present w p then false else flag)) = false /\
  (present w p = true -> w' = w) /\
  (forall q, p <> q -> fs w' !! q = fs w !! q) /\
  (forall q, present w q = true -> present w' q = true).
Proof.
  intros H.
  pose proof (fun q => present_mono_header_step _ _ _ _ _ q H) as Hmono.
  apply header_step_inr in H as [(Hgo & _ & ->)|(Hgo & ->)].
  - rewrite present_with_file. split; [done|]. split.
    + intros Hp. by rewrite Hp in Hgo.
    + split; [|done]. intros q Hq. by apply lookup_with_file_ne.
  - rewrite Hgo. split; [by destruct (present w p)|]. by repeat split.
Qed.

(** C3: in append mode, a second [initialize_files] returns what the first
    returned and changes no file, so no header row is written twice; and
    an [initialize_files] in append mode leaves untouched every destination
    that already exists. *)
Theorem C3_no_duplicate_header (self : CSVWriter) (w : world) :
  truthy (append_mode self) = true ->
  standard_paths self = true ->
  exists b s1 w1 s2 w2,
    initialize_files (self, w) = (Return b, (s1, w1)) /\
    initialize_files (s1, w1) = (Return b, (s2, w2)) /\
    fs w2 = fs w1 /\
    (present w (data_path self) = true ->
     fs w1 !! data_path self = fs w !! data_path self) /\
    (present w (hazard_path self) = true ->
     fs w1 !! hazard_path self = fs w !! hazard_path self).
Proof.
  intros Ha Hstd.
  destruct (standard_paths_apart self Hstd) as (Hne & Hdh & Hhd).
  pose proof (after_checks_standard self w Hstd) as Hstd1.
  destruct (after_checks_fields self w) as (_ & _ & Hd1 & Hh1 & Ha1).
  destruct (after_checks_flags self w) as [Hfd Hfh].
  rewrite Ha in Hfd, Hfh. cbn [andb] in Hfd, Hfh.
  set (s1 := after_checks self w) in *.
  assert (Ha' : truthy (append_mode s1) = true) by (by rewrite Ha1).
  pose proof (after_checks_fields s1) as Hf2.
  pose proof (after_checks_flags s1) as Hfl2.
  rewrite (initialize_files_eq self w). unfold initialize_files_result.
  fold s1. rewrite Ha. cbn [negb orb]. rewrite Hfd, Hfh.
  destruct (header_step _ (data_path self) data_header w) as [e|wa] eqn:H1.
  - (* the samples file could not be opened *)
    apply header_step_inl in H1 as [Hgo Herr].
    destruct (present w (data_path self)) eqn:Pd; [done|].
    exists false, s1, (logged init_message e w).
    eexists _, _. split; [reflexivity|].
    rewrite initialize_files_eq. unfold initialize_files_result.
    destruct (Hfl2 (logged init_message e w)) as [-> _].
    rewrite Ha', Hd1, present_logged, Pd, Hfd. cbn [negb orb andb].
    unfold header_step at 1. rewrite Hgo, open_error_logged, Herr.
    split; [reflexivity|]. by repeat split.
  - (* the samples block went through *)
    destruct (header_step_append _ _ _ _ _ H1) as (Hd_off & Hd_same & Hd_frame & Hd_mono).
    assert (Hph : present wa (hazard_path self) = present w (hazard_path self)).
    { unfold present. by rewrite Hd_frame. }
    rewrite <- Hph.
    destruct (header_step _ (hazard_path self) hazard_header wa) as [e|wb] eqn:H2.
    + (* the events file could not be opened *)
      apply header_step_inl in H2 as [Hgo Herr].
      exists false, s1, (logged init_message e wa).
      eexists _, _. split; [reflexivity|].
      rewrite initialize_files_eq. unfold initialize_files_result.
      destruct (Hfl2 (logged init_message e wa)) as [-> ->].
      rewrite Ha', Hd1, Hh1, !present_logged, Hfd, Hfh. cbn [negb orb andb].
      rewrite Hd_off. unfold header_step at 1.
      rewrite <- Hph.
      assert (Hgo2 : (if present wa (hazard_path self) then false
                      else (if present wa (hazard_path self) then false
                            else write_header_hazard self)) = true).
      { destruct (present wa (hazard_path self)); [done|exact Hgo]. }
      rewrite Hgo2. unfold header_step. rewrite open_error_logged, Herr.
      split; [reflexivity|]. split; [reflexivity|]. split.
      * intros Hp. simpl. by rewrite (Hd_same Hp).
      * intros Hp. by rewrite Hp in Hgo.
    + (* both blocks went through *)
      destruct (header_step_append _ _ _ _ _ H2)
        as (Hh_off & Hh_same & Hh_frame & Hh_mono).
      exists true, s1, wb.
      eexists _, _. split; [reflexivity|].
      rewrite initialize_files_eq. unfold initialize_files_result.
      destruct (Hfl2 wb) as [-> ->].
      rewrite Ha', Hd1, Hh1, Hfd, Hfh. cbn [negb orb andb].
      assert (Hd_off2 : (if present wb (data_path self) then false
                         else (if present w (data_path self) then false
                               else write_header_data self)) = false).
      { destruct (present wa (data_path self)) eqn:Pa.
        - by rewrite (Hh_mono _ Pa).
        - by destruct (present wb (data_path self)). }
      rewrite Hd_off2. unfold header_step at 1.
      rewrite <- Hph, Hh_off. unfold header_step.
      split; [reflexivity|]. split; [reflexivity|]. split.
      * intros Hp. rewrite Hh_frame by done. by rewrite (Hd_same Hp).
      * intros Hp. rewrite (Hh_same Hp).
        by apply Hd_frame.
Qed.

Lemma C3_no_duplicate_header_witness :
  truthy (append_mode writer_default) = true /\
  standard_paths writer_default = true /\
  exists b s1 w1 s2 w2,
    initialize_files (writer_default, world_with_dir) = (Return b, (s1, w1)) /\
    initialize_files (s1, w1) = (Return b, (s2, w2)) /\
    fs w2 = fs w1 /\
    (present world_with_dir (data_path writer_default) = true ->
     fs w1 !! data_path writer_default =
     fs world_with_dir !! data_path writer_default) /\
    (present world_with_dir (hazard_path writer_default) = true ->
     fs w1 !! hazard_path writer_default =
     fs world_with_dir !! hazard_path writer_default).
Proof.
  assert (Ha : truthy (append_mode writer_default) = true) by reflexivity.
  assert (Hstd : standard_paths writer_default = true) by reflexivity.
  split; [exact Ha|]. split; [exact Hstd|].
  exact (C3_no_duplicate_header writer_default world_with_dir Ha Hstd).
Defined.

(** *** A run from start to end *)

(** Construction with [csv_append_mode] false on an empty directory, then
    [initialize_files], one batch of two samples at time 10 and step 3, and
    one pothole event at time 12: the two files hold their header and the
    rows written, and nothing was printed. *)
Lemma end_to_end_run :
  let cfg :=
    PyDict [(PyStr "simulation", PyDict [(PyStr "csv_append_mode", PyBool false)])] in
  let batch :=
    [[(PyStr "id", PyStr "veh0"); (PyStr "type", PyStr "car");
      (PyStr "speed", PyInt 5)];
     [(PyStr "id", PyStr "veh1"); (PyStr "hazard_active", PyBool true)]] in
  let context := [(PyStr "simulation_time", PyInt 10); (PyStr "step", PyInt 3)] in
  let event := [(PyStr "hazard_name", PyStr "pothole"); (PyStr "timestamp", PyInt 12)] in
  exists s0 w0 s1 w1 w2 w3,
    __init__ cfg empty_world = (Return s0, w0) /\
    initialize_files (s0, w0) = (Return true, (s1, w1)) /\
    content_of w1 (data_path s1) = Csv.writerow data_header /\
    content_of w1 (hazard_path s1) = Csv.writerow hazard_header /\
    write_data s1 batch context w1 = (Return tt, w2) /\
    write_hazard_event s1 event w2 = (Return tt, w3) /\
    content_of w3 (data_path s1) =
      "timestamp,step,vehicle_id,type,x,y,speed,acceleration,angle,lane_id,hazard_active"
      +:+ CRLF +:+
      "10,3,veh0,car,0.00,0.00,5.00,0.00,0.00,,False" +:+ CRLF +:+
      "10,3,veh1,,0.00,0.00,0.00,0.00,0.00,,True" +:+ CRLF /\
    content_of w3 (hazard_path s1) =
      "timestamp,hazard_name,metadata" +:+ CRLF +:+
      "12,pothole,{}" +:+ CRLF /\
    stdout w3 = [].
Proof.
  do 6 eexists.
  split; [vm_compute; reflexivity|].
  split; [vm_compute; reflexivity|].
  split; [vm_compute; reflexivity|].
  split; [vm_compute; reflexivity|].
  split; [vm_compute; reflexivity|].
  split; [vm_compute; reflexivity|].
  split; [vm_compute; reflexivity|].
  split; vm_compute; reflexivity.
Qed.

(** ** Further properties of the class *)

(** *** The constructor *)

Lemma ensure_output_dir_possible (w : world) :
  present w "output_data" = true \/ "output_data" ∉ denied w ->
  exists w', ensure_output_dir w = inr w'.
Proof.
  intros Hdir. unfold ensure_output_dir.
  destruct (present w "output_data") eqn:Hp; [by eexists|].
  destruct Hdir as [Hdir|Hdir]; [done|].
  rewrite bool_decide_eq_false_2 by done. by eexists.
Qed.

(** X1: a configuration without a usable simulation section makes the
    constructor raise, and only after the output directory has been seen
    or made: [KeyError] when the key is missing, [AttributeError] when the
    section is not a dict, [TypeError] when the configuration itself is
    not a dict.  The entry at the output path is there afterwards and no
    other entry has changed. *)
Theorem X1_constructor_rejects_bad_config (cfg : pyval) (w : world) :
  present w "output_data" = true \/ "output_data" ∉ denied w ->
  (forall s w', __init__ cfg w = (Return s, w') ->
                exists d sim, cfg = PyDict d /\
                              dict_lookup "simulation" d = Some (PyDict sim)) /\
  exists w',
    present w' "output_data" = true /\
    (forall q, q <> "output_data" -> fs w' !! q = fs w !! q) /\
    (forall d, cfg = PyDict d -> dict_lookup "simulation" d = None ->
               __init__ cfg w = (Raise (KeyError "simulation"), w')) /\
    (forall d v, cfg = PyDict d -> dict_lookup "simulation" d = Some v ->
                 (forall sim, v <> PyDict sim) ->
                 __init__ cfg w = (Raise AttributeError, w')) /\
    ((forall d, cfg <> PyDict d) -> __init__ cfg w = (Raise TypeError, w')).
Proof.
  intros Hdir. split.
  - intros s w' Hinit.
    destruct (init_returns _ _ _ _ Hinit) as (_ & sim & mode & Hs & Hm & _).
    destruct cfg as [| | | | | |d]; try done.
    unfold subscript in Hs.
    destruct (dict_lookup "simulation" d) as [v|] eqn:E; [|done].
    injection Hs as ->. destruct sim as [| | | | | |sim']; try done.
    by exists d, sim'.
  - destruct (ensure_output_dir_possible w Hdir) as [w' Hw'].
    destruct (ensure_output_dir_present _ _ Hw') as (Hp & _ & _ & Hframe).
    exists w'. split; [exact Hp|]. split; [exact Hframe|].
    rewrite init_eq, Hw'. split; [|split].
    + intros d -> Hnone. unfold subscript. by rewrite Hnone.
    + intros d v -> Hsome Hnd. unfold subscript. rewrite Hsome.
      destruct v as [| | | | | |sim]; try reflexivity.
      by destruct (Hnd sim).
    + intros Hnd. destruct cfg as [| | | | | |d]; try reflexivity.
      by destruct (Hnd d).
Qed.

Lemma X1_constructor_rejects_bad_config_witness :
  let cfg := PyDict [(PyStr "logging", PyDict [])] in
  (present empty_world "output_data" = true \/
   "output_data" ∉ denied empty_world) /\
  exists w',
    present w' "output_data" = true /\
    (forall q, q <> "output_data" -> fs w' !! q = fs empty_world !! q) /\
    (forall d, cfg = PyDict d -> dict_lookup "simulation" d = None ->
               __init__ cfg empty_world = (Raise (KeyError "simulation"), w')) /\
    (forall d v, cfg = PyDict d -> dict_lookup "simulation" d = Some v ->
                 (forall sim, v <> PyDict sim) ->
                 __init__ cfg empty_world = (Raise AttributeError, w')) /\
    ((forall d, cfg <> PyDict d) ->
     __init__ cfg empty_world = (Raise TypeError, w')).
Proof.
  intros cfg.
  assert (H : present empty_world "output_data" = true \/
              "output_data" ∉ denied empty_world).
  { right. vm_compute. intros Hin. inversion Hin. }
  split; [exact H|].
  exact (proj2 (X1_constructor_rejects_bad_config cfg empty_world H)).
Defined.

(** X2: the object the constructor returns keeps the configuration, has
    the two paths [output_data/simulation_data.csv] and
    [output_data/hazard_events.csv], both header flags set, and as
    [append_mode] the value found under [csv_append_mode] whatever its
    type ([True] when absent); the constructor prints nothing, changes no
    entry but the output directory, and changes nothing at all when
    something exists at the output path. *)
Theorem X2_constructed_object
    (cfg : pyval) (w : world) (s : CSVWriter) (w1 : world) :
  __init__ cfg w = (Return s, w1) ->
  config s = cfg /\
  data_path s = path_join (output_dir s) (data_file s) /\
  hazard_path s = path_join (output_dir s) (hazard_file s) /\
  standard_paths s = true /\
  write_header_data s = true /\ write_header_hazard s = true /\
  (exists d sim,
     cfg = PyDict d /\ dict_lookup "simulation" d = Some (PyDict sim) /\
     append_mode s = dict_get sim "csv_append_mode" (PyBool true)) /\
  (forall q, q <> output_dir s -> fs w1 !! q = fs w !! q) /\
  (present w (output_dir s) = true -> w1 = w) /\
  denied w1 = denied w /\ stdout w1 = stdout w.
Proof.
  intros Hinit.
  destruct (init_returns _ _ _ _ Hinit) as (Hdir & sim & mode & Hs & Hm & ->).
  destruct (ensure_output_dir_present _ _ Hdir) as (_ & _ & Hsame & Hframe).
  cbn [config data_path hazard_path output_dir data_file hazard_file
       write_header_data write_header_hazard append_mode new_writer].
  split; [done|]. split; [reflexivity|]. split; [reflexivity|].
  split; [reflexivity|]. split; [done|]. split; [done|]. split.
  - destruct cfg as [| | | | | |d]; try done. unfold subscript in Hs.
    destruct (dict_lookup "simulation" d) as [v|] eqn:E; [|done].
    injection Hs as ->. destruct sim as [| | | | | |sim']; try done.
    exists d, sim'. split; [done|]. split; [done|].
    unfold method_get in Hm. by injection Hm as <-.
  - split; [exact Hframe|]. split; [exact Hsame|].
    unfold ensure_output_dir in Hdir.
    destruct (present w "output_data"); [by injection Hdir as <-|].
    destruct (bool_decide _); [done|]. by injection Hdir as <-.
Qed.

Lemma X2_constructed_object_witness :
  let cfg :=
    PyDict [(PyStr "simulation", PyDict [(PyStr "csv_append_mode", PyInt 0)])] in
  let s := new_writer cfg (PyInt 0) in
  __init__ cfg empty_world = (Return s, world_with_dir) /\
  config s = cfg /\
  data_path s = path_join (output_dir s) (data_file s) /\
  hazard_path s = path_join (output_dir s) (hazard_file s) /\
  standard_paths s = true /\
  write_header_data s = true /\ write_header_hazard s = true /\
  (exists d sim,
     cfg = PyDict d /\ dict_lookup "simulation" d = Some (PyDict sim) /\
     append_mode s = dict_get sim "csv_append_mode" (PyBool true)) /\
  (forall q, q <> output_dir s -> fs world_with_dir !! q = fs empty_world !! q) /\
  (present empty_world (output_dir s) = true -> world_with_dir = empty_world) /\
  denied world_with_dir = denied empty_world /\
  stdout world_with_dir = stdout empty_world.
Proof.
  intros cfg s.
  assert (H : __init__ cfg empty_world = (Return s, world_with_dir))
    by (vm_compute; reflexivity).
  split; [exact H|].
  exact (X2_constructed_object cfg empty_world s world_with_dir H).
Defined.

(** X3: constructing again where a construction has succeeded returns an
    equal object and leaves the world as it is: the directory is made at
    most once. *)
Theorem X3_constructor_idempotent
    (cfg : pyval) (w : world) (s : CSVWriter) (w1 : world) :
  __init__ cfg w = (Return s, w1) ->
  __init__ cfg w1 = (Return s, w1).
Proof.
  intros Hinit.
  destruct (init_returns _ _ _ _ Hinit) as (Hdir & sim & mode & Hs & Hm & ->).
  destruct (ensure_output_dir_present _ _ Hdir) as (Hp & _ & _ & _).
  rewrite init_eq. unfold ensure_output_dir. by rewrite Hp, Hs, Hm.
Qed.

Lemma X3_constructor_idempotent_witness :
  __init__ config_default empty_world = (Return writer_default, world_with_dir) /\
  __init__ config_default world_with_dir = (Return writer_default, world_with_dir).
Proof.
  assert (H : __init__ config_default empty_world =
              (Return writer_default, world_with_dir))
    by (vm_compute; reflexivity).
  split; [exact H|].
  exact (X3_constructor_idempotent config_default empty_world
           writer_default world_with_dir H).
Defined.

(** *** Failures and repetitions of [initialize_files] *)

Lemma after_checks_no_append (self : CSVWriter) (w : world) :
  truthy (append_mode self) = false -> after_checks self w = self.
Proof. intros Ha. unfold after_checks. by rewrite Ha. Qed.

(** the samples header block runs and its [open] fails *)
Lemma initialize_files_fails_at_samples
    (self : CSVWriter) (w : world) (e : exn) :
  negb (truthy (append_mode self)) ||
    (write_header_data self && negb (present w (data_path self))) = true ->
  open_error w (data_path self) = Some e ->
  exists s',
    initialize_files (self, w) = (Return false, (s', logged init_message e w)).
Proof.
  intros Hgo Herr. exists (after_checks self w).
  rewrite initialize_files_eq. unfold initialize_files_result.
  destruct (after_checks_flags self w) as [-> _].
  assert (Hgo' : negb (truthy (append_mode self)) ||
                 (if truthy (append_mode self) && present w (data_path self)
                  then false else write_header_data self) = true).
  { destruct (truthy (append_mode self)); [|done]. cbn [negb orb andb] in *.
    destruct (present w (data_path self)); [|by rewrite andb_true_r in Hgo].
    by rewrite andb_false_r in Hgo. }
  rewrite Hgo'. unfold header_step. by rewrite Herr.
Qed.

(** X4: when the header block of the samples file runs (not append mode,
    or the samples flag set and nothing at the samples path) and the
    samples file cannot be opened, [initialize_files] stops there: it
    returns [False], prints the exception, and leaves every entry as it
    was; the events file is not even tried. *)
Theorem X4_initialize_stops_at_first_failure
    (self : CSVWriter) (w : world) (e : exn) :
  negb (truthy (append_mode self)) ||
    (write_header_data self && negb (present w (data_path self))) = true ->
  open_error w (data_path self) = Some e ->
  exists s' w',
    initialize_files (self, w) = (Return false, (s', w')) /\
    fs w' = fs w /\
    stdout w' = (stdout w ++ [{| message := init_message; cause := e |}])%list.
Proof.
  intros Hgo Herr.
  destruct (initialize_files_fails_at_samples self w e Hgo Herr) as [s' Hrun].
  by exists s', (logged init_message e w).
Qed.

Lemma X4_initialize_stops_at_first_failure_witness :
  let e := OSError ENOENT "output_data/simulation_data.csv" in
  open_error empty_world (data_path writer_default) = Some e /\
  exists s' w',
    initialize_files (writer_default, empty_world) = (Return false, (s', w')) /\
    fs w' = fs empty_world /\
    stdout w' =
      (stdout empty_world ++ [{| message := init_message; cause := e |}])%list.
Proof.
  intros e.
  assert (Hgo : negb (truthy (append_mode writer_default)) ||
                  (write_header_data writer_default &&
                   negb (present empty_world (data_path writer_default))) = true)
    by reflexivity.
  assert (Herr : open_error empty_world (data_path writer_default) = Some e)
    by (vm_compute; reflexivity).
  split; [exact Herr|].
  exact (X4_initialize_stops_at_first_failure writer_default empty_world e
           Hgo Herr).
Defined.

(** X5: outside append mode, when the samples file can be opened and the
    events file cannot, [initialize_files] returns [False] after it has
    already replaced the samples file by its header: what the samples file
    held is lost although the call failed.  The events entry and every
    other entry are as before, and the exception is printed. *)
Theorem X5_failed_initialize_has_truncated_samples
    (self : CSVWriter) (w : world) (e : exn) :
  standard_paths self = true ->
  truthy (append_mode self) = false ->
  open_error w (data_path self) = None ->
  open_error w (hazard_path self) = Some e ->
  exists w',
    initialize_files (self, w) = (Return false, (self, w')) /\
    fs w' !! data_path self = Some (File (Csv.writerow data_header)) /\
    (forall q, q <> data_path self -> fs w' !! q = fs w !! q) /\
    stdout w' = (stdout w ++ [{| message := init_message; cause := e |}])%list.
Proof.
  intros Hstd Ha Hd Hh.
  destruct (standard_paths_apart self Hstd) as (Hne & Hdh & _).
  rewrite initialize_files_eq. unfold initialize_files_result.
  rewrite (after_checks_no_append self w Ha), Ha. cbn [negb orb].
  unfold header_step. rewrite Hd, open_error_with_file, Hh by done.
  eexists. split; [reflexivity|]. cbn [fs logged stdout].
  split; [apply lookup_with_file_eq|]. split; [|reflexivity].
  intros q Hq. by apply lookup_with_file_ne.
Qed.

Lemma X5_failed_initialize_has_truncated_samples_witness :
  let s := new_writer config_default (PyBool false) in
  let w :=
    {| fs := {[ "output_data" := Dir;
                "output_data/simulation_data.csv" := File "old rows";
                "output_data/hazard_events.csv" := Dir ]};
       denied := ∅; stdout := [] |} in
  let e := OSError EISDIR "output_data/hazard_events.csv" in
  exists w',
    initialize_files (s, w) = (Return false, (s, w')) /\
    fs w' !! data_path s = Some (File (Csv.writerow data_header)) /\
    (forall q, q <> data_path s -> fs w' !! q = fs w !! q) /\
    stdout w' = (stdout w ++ [{| message := init_message; cause := e |}])%list.
Proof.
  intros s w e.
  assert (Hstd : standard_paths s = true) by reflexivity.
  assert (Ha : truthy (append_mode s) = false) by reflexivity.
  assert (Hd : open_error w (data_path s) = None) by (vm_compute; reflexivity).
  assert (Hh : open_error w (hazard_path s) = Some e) by (vm_compute; reflexivity).
  exact (X5_failed_initialize_has_truncated_samples s w e Hstd Ha Hd Hh).
Defined.

(** X6: outside append mode too, a second [initialize_files] returns what
    the first returned and leaves every file as the first left it. *)
Theorem X6_initialize_twice_without_append (self : CSVWriter) (w : world) :
  truthy (append_mode self) = false ->
  standard_paths self = true ->
  exists b w1 w2,
    initialize_files (self, w) = (Return b, (self, w1)) /\
    initialize_files (self, w1) = (Return b, (self, w2)) /\
    fs w2 = fs w1.
Proof.
  intros Ha Hstd.
  destruct (standard_paths_apart self Hstd) as (Hne & Hdh & Hhd).
  assert (Hdd : data_path self <> dirname (data_path self)).
  { destruct (standard_paths_eq self Hstd) as (_ & -> & _).
    change (dirname "output_data/simulation_data.csv") with "output_data".
    discriminate. }
  assert (Hhh : hazard_path self <> dirname (hazard_path self)).
  { destruct (standard_paths_eq self Hstd) as (_ & _ & ->).
    change (dirname "output_data/hazard_events.csv") with "output_data".
    discriminate. }
  assert (Hreopen : forall p text w0,
            p <> dirname p -> open_error w0 p = None ->
            open_error (with_file p text w0) p = None).
  { intros p text w0 Hp Hok. unfold open_error, parent_error in *.
    rewrite lookup_with_file_eq.
    destruct (String.eqb (dirname p) EmptyString).
    - destruct (fs w0 !! p) as [[|c]|]; [done|exact Hok..].
    - rewrite (lookup_with_file_ne p text w0 (dirname p) Hp).
      destruct (fs w0 !! dirname p) as [[|c']|]; [|done..].
      destruct (fs w0 !! p) as [[|c]|]; [done|exact Hok..]. }
  rewrite initialize_files_eq. unfold initialize_files_result.
  rewrite (after_checks_no_append self w Ha), Ha. cbn [negb orb].
  unfold header_step.
  destruct (open_error w (data_path self)) as [e|] eqn:Hd.
  - exists false, (logged init_message e w), (logged init_message e (logged init_message e w)).
    split; [reflexivity|].
    rewrite initialize_files_eq. unfold initialize_files_result.
    rewrite (after_checks_no_append self _ Ha), Ha. cbn [negb orb].
    unfold header_step. rewrite open_error_logged, Hd. by split.
  - rewrite open_error_with_file by done.
    destruct (open_error w (hazard_path self)) as [e|] eqn:Hh.
    + eexists false, _, _. split; [reflexivity|].
      rewrite initialize_files_eq. unfold initialize_files_result.
      rewrite (after_checks_no_append self _ Ha), Ha. cbn [negb orb].
      unfold header_step. rewrite open_error_logged.
      rewrite (Hreopen _ _ _ Hdd Hd).
      change (with_file (data_path self) (Csv.writerow data_header)
                (logged init_message e
                   (with_file (data_path self) (Csv.writerow data_header) w)))
        with (logged init_message e
                (with_file (data_path self) (Csv.writerow data_header)
                   (with_file (data_path self) (Csv.writerow data_header) w))).
      rewrite with_file_twice.
      rewrite open_error_logged, open_error_with_file, Hh by done.
      split; [reflexivity|]. reflexivity.
    + eexists true, _, _. split; [reflexivity|].
      rewrite initialize_files_eq. unfold initialize_files_result.
      rewrite (after_checks_no_append self _ Ha), Ha. cbn [negb orb].
      unfold header_step.
      set (w1 := with_file (hazard_path self) (Csv.writerow hazard_header)
                   (with_file (data_path self) (Csv.writerow data_header) w)).
      assert (Hd1 : open_error w1 (data_path self) = None).
      { unfold w1. rewrite open_error_with_file by done.
        by apply Hreopen. }
      rewrite Hd1.
      assert (Hh1 : open_error
                      (with_file (data_path self) (Csv.writerow data_header) w1)
                      (hazard_path self) = None).
      { rewrite open_error_with_file by done. unfold w1.
        apply Hreopen; [done|]. by rewrite open_error_with_file. }
      rewrite Hh1. split; [reflexivity|].
      unfold w1, with_file, set_fs; cbn [fs].
      apply map_eq. intros q.
      destruct (decide (hazard_path self = q)) as [<-|Hq1].
      { by rewrite !lookup_insert_eq. }
      rewrite (lookup_insert_ne _ (hazard_path self)) by done.
      destruct (decide (data_path self = q)) as [<-|Hq2].
      { rewrite lookup_insert_eq.
        rewrite (lookup_insert_ne _ (hazard_path self)) by done.
        by rewrite lookup_insert_eq. }
      by rewrite !lookup_insert_ne.
Qed.

Lemma X6_initialize_twice_without_append_witness :
  let s := new_writer config_default (PyBool false) in
  truthy (append_mode s) = false /\
  standard_paths s = true /\
  exists b w1 w2,
    initialize_files (s, world_with_dir) = (Return b, (s, w1)) /\
    initialize_files (s, w1) = (Return b, (s, w2)) /\
    fs w2 = fs w1.
Proof.
  intros s.
  assert (Ha : truthy (append_mode s) = false) by reflexivity.
  assert (Hstd : standard_paths s = true) by reflexivity.
  split; [exact Ha|]. split; [exact Hstd|].
  exact (X6_initialize_twice_without_append s world_with_dir Ha Hstd).
Defined.

Lemma set_flags_cleared (self : CSVWriter) :
  (write_header_data self = false -> set_write_header_data false self = self) /\
  (write_header_hazard self = false -> set_write_header_hazard false self = self).
Proof.
  destruct self; cbn. split; intros ->; reflexivity.
Qed.

(** X7: the header flags only ever go from set to cleared: after
    [initialize_files] a cleared flag is still cleared, and the
    configuration, the paths and [append_mode] are what they were.  Hence,
    in append mode, once both flags are cleared [initialize_files] does
    nothing at all and returns [True], even where a destination is
    missing: a file removed after an earlier call is neither made again
    nor given a header. *)
Theorem X7_header_flags_are_one_way (self : CSVWriter) (w : world) :
  (exists b s' w',
     initialize_files (self, w) = (Return b, (s', w')) /\
     (write_header_data self = false -> write_header_data s' = false) /\
     (write_header_hazard self = false -> write_header_hazard s' = false) /\
     config s' = config self /\ output_dir s' = output_dir self /\
     data_path s' = data_path self /\ hazard_path s' = hazard_path self /\
     append_mode s' = append_mode self) /\
  (truthy (append_mode self) = true ->
   write_header_data self = false -> write_header_hazard self = false ->
   initialize_files (self, w) = (Return true, (self, w))).
Proof.
  split.
  - destruct (initialize_files_frame self w) as (b & s' & w' & Hrun & -> & _).
    exists b, (after_checks self w), w'. split; [exact Hrun|].
    destruct (after_checks_flags self w) as [-> ->].
    destruct (after_checks_fields self w) as (Hc & Ho & Hd & Hh & Ha).
    split; [intros ->; by destruct (_ && _)|].
    split; [intros ->; by destruct (_ && _)|]. done.
  - intros Ha Hfd Hfh.
    destruct (set_flags_cleared self) as [Hsd Hsh].
    assert (Hs : after_checks self w = self).
    { unfold after_checks. rewrite Ha. cbn [andb].
      destruct (present w (data_path self)); rewrite ?(Hsd Hfd);
        destruct (present w (hazard_path self)); by rewrite ?(Hsh Hfh). }
    rewrite initialize_files_eq. unfold initialize_files_result.
    rewrite Hs, Ha, Hfd, Hfh. reflexivity.
Qed.

(** X8: when a regular file stands at the output path, the constructor
    accepts it (the path exists) and changes nothing; the object then
    cannot write: with nothing at the samples path, [initialize_files]
    returns [False], a non-empty [write_data] and [write_hazard_event]
    return normally, and each of them only prints the [OSError] of its
    [open]. *)
Theorem X8_output_path_is_a_file
    (cfg : pyval) (w : world) (c : string) (s : CSVWriter) (w1 : world) :
  fs w !! "output_data" = Some (File c) ->
  fs w !! "output_data/simulation_data.csv" = None ->
  __init__ cfg w = (Return s, w1) ->
  w1 = w /\
  (exists s',
     initialize_files (s, w) =
       (Return false,
        (s', logged init_message (OSError ENOTDIR (data_path s)) w))) /\
  (forall sensor_data simulation_state,
     sensor_data <> [] ->
     write_data s sensor_data simulation_state w =
       (Return tt, logged data_message (OSError ENOTDIR (data_path s)) w)) /\
  (forall hazard_event,
     write_hazard_event s hazard_event w =
       (Return tt, logged hazard_message (OSError ENOTDIR (hazard_path s)) w)).
Proof.
  intros Hfile Hnone Hinit.
  assert (Hp : present w "output_data" = true).
  { unfold present. rewrite Hfile. by apply bool_decide_eq_true_2. }
  destruct (init_returns _ _ _ _ Hinit) as (Hdir & sim & mode & _ & _ & ->).
  destruct (ensure_output_dir_present _ _ Hdir) as (_ & _ & Hsame & _).
  cbn [data_path hazard_path new_writer].
  assert (Hed : open_error w "output_data/simulation_data.csv" =
                Some (OSError ENOTDIR "output_data/simulation_data.csv")).
  { unfold open_error, parent_error.
    change (dirname "output_data/simulation_data.csv") with "output_data".
    cbn [String.eqb Ascii.eqb Bool.eqb]. by rewrite Hfile. }
  assert (Heh : open_error w "output_data/hazard_events.csv" =
                Some (OSError ENOTDIR "output_data/hazard_events.csv")).
  { unfold open_error, parent_error.
    change (dirname "output_data/hazard_events.csv") with "output_data".
    cbn [String.eqb Ascii.eqb Bool.eqb]. by rewrite Hfile. }
  split; [by apply Hsame|]. split; [|split].
  - apply (initialize_files_fails_at_samples (new_writer cfg mode) w);
      [|exact Hed].
    cbn [write_header_data data_path new_writer andb].
    unfold present. rewrite Hnone.
    rewrite bool_decide_eq_false_2 by (by intros [? ?]).
    by destruct (truthy _).
  - intros sensor_data simulation_state Hne.
    rewrite write_data_eq. unfold write_data_result.
    destruct sensor_data; [done|]. cbn [data_path new_writer]. by rewrite Hed.
  - intros hazard_event.
    rewrite write_hazard_event_eq. unfold write_hazard_event_result.
    cbn [hazard_path new_writer]. by rewrite Heh.
Qed.

Lemma X8_output_path_is_a_file_witness :
  let w :=
    {| fs := {[ "output_data" := File "notes" ]}; denied := ∅; stdout := [] |} in
  __init__ config_default w = (Return writer_default, w) /\
  w = w /\
  (exists s',
     initialize_files (writer_default, w) =
       (Return false,
        (s', logged init_message
               (OSError ENOTDIR (data_path writer_default)) w))) /\
  (forall sensor_data simulation_state,
     sensor_data <> [] ->
     write_data writer_default sensor_data simulation_state w =
       (Return tt,
        logged data_message (OSError ENOTDIR (data_path writer_default)) w)) /\
  (forall hazard_event,
     write_hazard_event writer_default hazard_event w =
       (Return tt,
        logged hazard_message (OSError ENOTDIR (hazard_path writer_default)) w)).
Proof.
  intros w.
  assert (H1 : fs w !! "output_data" = Some (File "notes")) by reflexivity.
  assert (H2 : fs w !! "output_data/simulation_data.csv" = None) by reflexivity.
  assert (H3 : __init__ config_default w = (Return writer_default, w))
    by (vm_compute; reflexivity).
  split; [exact H3|].
  exact (X8_output_path_is_a_file config_default w "notes" writer_default w
           H1 H2 H3).
Defined.

Lemma X7_header_flags_are_one_way_witness :
  let s := set_write_header_hazard false (set_write_header_data false writer_default) in
  truthy (append_mode s) = true /\
  initialize_files (s, empty_world) = (Return true, (s, empty_world)).
Proof.
  intros s.
  assert (Ha : truthy (append_mode s) = true) by reflexivity.
  assert (Hd : write_header_data s = false) by reflexivity.
  assert (Hh : write_header_hazard s = false) by reflexivity.
  split; [exact Ha|].
  exact (proj2 (X7_header_flags_are_one_way s empty_world) Ha Hd Hh).
Defined.

(** *** Batches *)

Lemma rows_text_app (a b : list (list pyval)) :
  rows_text (a ++ b) = rows_text a +:+ rows_text b.
Proof.
  induction a as [|row a IH]; [reflexivity|].
  cbn [app rows_text fold_right]. fold (rows_text (a ++ b)) (rows_text a).
  by rewrite IH, append_assoc.
Qed.

Lemma sample_rows_app (timestamp step : pyval) (good rest : list pydict)
    (rows : list (list pyval)) :
  sample_rows timestamp step good = (rows, None) ->
  sample_rows timestamp step (good ++ rest) =
  let '(rows2, err) := sample_rows timestamp step rest in
  ((rows ++ rows2)%list, err).
Proof.
  revert rows. induction good as [|data good IH]; intros rows.
  - intros [= <-]. cbn [app]. by destruct (sample_rows timestamp step rest).
  - cbn [app sample_rows].
    destruct (sample_row timestamp step data) as [e|row]; [done|].
    destruct (sample_rows timestamp step good) as [rows1 err1] eqn:E.
    intros [= <- ->]. rewrite (IH rows1 eq_refl).
    by destruct (sample_rows timestamp step rest).
Qed.

Lemma unformattable_row (timestamp step : pyval) (data : pydict) :
  formattable data = false ->
  exists e, sample_row timestamp step data = inl e.
Proof.
  unfold formattable, numeric_columns. cbn [forallb snd].
  unfold sample_row.
  destruct (format_2f (dict_get data "x" _)); [by eexists|].
  destruct (format_2f (dict_get data "y" _)); [by eexists|].
  destruct (format_2f (dict_get data "speed" _)); [by eexists|].
  destruct (format_2f (dict_get data "acceleration" _)); [by eexists|].
  destruct (format_2f (dict_get data "angle" _)); [by eexists|].
  done.
Qed.

(** X9: a batch is written up to its first record that does not format:
    when the samples file can be opened, the records before it give one
    row each, in order, at the end of the file; the record itself and all
    the records after it give nothing; the exception of the format is
    printed once and [write_data] returns normally. *)
Theorem X9_batch_stops_at_first_bad_record
    (self : CSVWriter) (good : list pydict) (bad : pydict)
    (rest : list pydict) (simulation_state : pydict) (w : world) :
  open_error w (data_path self) = None ->
  forallb formattable good = true ->
  formattable bad = false ->
  let timestamp := dict_get simulation_state "simulation_time" (PyInt 0) in
  let step := dict_get simulation_state "step" (PyInt 0) in
  exists rows e w',
    write_data self (good ++ bad :: rest) simulation_state w = (Return tt, w') /\
    Forall2 (row_matches timestamp step) good rows /\
    sample_row timestamp step bad = inl e /\
    content_of w' (data_path self) =
      content_of w (data_path self) +:+ rows_text rows /\
    (forall q, q <> data_path self -> fs w' !! q = fs w !! q) /\
    stdout w' = (stdout w ++ [{| message := data_message; cause := e |}])%list.
Proof.
  intros Hopen Hgood Hbad timestamp step.
  destruct (formattable_rows timestamp step good Hgood) as (rows & Hrows & Hmatch).
  destruct (unformattable_row timestamp step bad Hbad) as [e He].
  exists rows, e,
    (write_data_result self (good ++ bad :: rest) simulation_state w).
  split; [apply write_data_eq|]. split; [exact Hmatch|]. split; [exact He|].
  assert (Hres :
    write_data_result self (good ++ bad :: rest) simulation_state w =
    logged data_message e (appended (data_path self) (rows_text rows) w)).
  { unfold write_data_result.
    destruct (good ++ bad :: rest)%list as [|d0 l] eqn:El.
    { by destruct good. }
    rewrite Hopen, <- El. fold timestamp step.
    rewrite (sample_rows_app _ _ _ _ _ Hrows).
    cbn [sample_rows]. rewrite He. by rewrite app_nil_r. }
  rewrite Hres.
  destruct (appended_frame (data_path self) (rows_text rows) w)
    as (Hf & Hc & _ & Ho).
  split; [exact Hc|]. split; [exact Hf|]. cbn [stdout logged]. by rewrite Ho.
Qed.

Lemma X9_batch_stops_at_first_bad_record_witness :
  let good := [[(PyStr "id", PyStr "a")]] in
  let bad := [(PyStr "x", PyStr "fast")] in
  let rest := [[(PyStr "id", PyStr "c")]] in
  open_error world_with_dir (data_path writer_default) = None /\
  exists rows e w',
    write_data writer_default (good ++ bad :: rest) [] world_with_dir =
      (Return tt, w') /\
    Forall2 (row_matches (PyInt 0) (PyInt 0)) good rows /\
    sample_row (PyInt 0) (PyInt 0) bad = inl e /\
    content_of w' (data_path writer_default) =
      content_of world_with_dir (data_path writer_default) +:+ rows_text rows /\
    (forall q, q <> data_path writer_default ->
               fs w' !! q = fs world_with_dir !! q) /\
    stdout w' =
      (stdout world_with_dir ++ [{| message := data_message; cause := e |}])%list.
Proof.
  intros good bad rest.
  assert (Hopen : open_error world_with_dir (data_path writer_default) = None)
    by (vm_compute; reflexivity).
  assert (Hgood : forallb formattable good = true) by (vm_compute; reflexivity).
  assert (Hbad : formattable bad = false) by (vm_compute; reflexivity).
  split; [exact Hopen|].
  exact (X9_batch_stops_at_first_bad_record writer_default good bad rest []
           world_with_dir Hopen Hgood Hbad).
Defined.

(** opening again a file that was just written succeeds *)
Lemma open_error_reopen (p text : string) (w : world) :
  p <> dirname p -> open_error w p = None ->
  open_error (with_file p text w) p = None.
Proof.
  intros Hp Hok. unfold open_error, parent_error in *.
  rewrite lookup_with_file_eq.
  destruct (String.eqb (dirname p) EmptyString).
  - destruct (fs w !! p) as [[|c]|]; [done|exact Hok..].
  - rewrite (lookup_with_file_ne p text w (dirname p) Hp).
    destruct (fs w !! dirname p) as [[|c']|]; [|done..].
    destruct (fs w !! p) as [[|c]|]; [done|exact Hok..].
Qed.

Lemma appended_twice (p t1 t2 : string) (w : world) :
  appended p t2 (appended p t1 w) = appended p (t1 +:+ t2) w.
Proof.
  unfold appended. unfold content_of at 1.
  by rewrite lookup_with_file_eq, with_file_twice, append_assoc.
Qed.

Lemma standard_paths_not_own_parent (self : CSVWriter) :
  standard_paths self = true ->
  data_path self <> dirname (data_path self) /\
  hazard_path self <> dirname (hazard_path self).
Proof.
  intros Hstd. destruct (standard_paths_eq self Hstd) as (_ & -> & ->).
  change (dirname "output_data/simulation_data.csv") with "output_data".
  change (dirname "output_data/hazard_events.csv") with "output_data".
  by split.
Qed.

(** X10: two calls of [write_data] with the same context leave the world
    as one call with the two batches joined does, when the samples file can
    be opened and every record of the first batch formats. *)
Theorem X10_batches_compose
    (self : CSVWriter) (batch1 batch2 : list pydict)
    (simulation_state : pydict) (w : world) :
  standard_paths self = true ->
  open_error w (data_path self) = None ->
  forallb formattable batch1 = true ->
  exists w1 w2,
    write_data self batch1 simulation_state w = (Return tt, w1) /\
    write_data self batch2 simulation_state w1 = (Return tt, w2) /\
    write_data self (batch1 ++ batch2) simulation_state w = (Return tt, w2).
Proof.
  intros Hstd Hopen Hall.
  destruct (standard_paths_not_own_parent self Hstd) as [Hdd _].
  set (timestamp := dict_get simulation_state "simulation_time" (PyInt 0)).
  set (step := dict_get simulation_state "step" (PyInt 0)).
  destruct (formattable_rows timestamp step batch1 Hall) as (rows1 & Hrows1 & _).
  exists (write_data_result self batch1 simulation_state w),
    (write_data_result self batch2 simulation_state
       (write_data_result self batch1 simulation_state w)).
  split; [apply write_data_eq|]. split; [apply write_data_eq|].
  rewrite write_data_eq. f_equal.
  destruct batch1 as [|d1 b1]; [reflexivity|].
  destruct batch2 as [|d2 b2].
  { by rewrite app_nil_r. }
  assert (H1 : write_data_result self (d1 :: b1) simulation_state w =
               appended (data_path self) (rows_text rows1) w).
  { unfold write_data_result. rewrite Hopen. fold timestamp step.
    by rewrite Hrows1. }
  rewrite H1.
  unfold write_data_result at 1. cbn [app]. rewrite Hopen.
  fold timestamp step.
  change (d1 :: (b1 ++ d2 :: b2)%list) with ((d1 :: b1) ++ d2 :: b2)%list.
  rewrite (sample_rows_app _ _ _ _ _ Hrows1).
  unfold write_data_result. unfold appended at 3.
  rewrite (open_error_reopen _ _ _ Hdd Hopen).
  fold (appended (data_path self) (rows_text rows1) w).
  fold timestamp step.
  destruct (sample_rows timestamp step (d2 :: b2)) as [rows2 err].
  rewrite rows_text_app, appended_twice. reflexivity.
Qed.

Lemma X10_batches_compose_witness :
  let batch1 := [[(PyStr "id", PyStr "a")]] in
  let batch2 := [[(PyStr "id", PyStr "b")]; [(PyStr "x", PyNone)]] in
  standard_paths writer_default = true /\
  exists w1 w2,
    write_data writer_default batch1 [] world_with_dir = (Return tt, w1) /\
    write_data writer_default batch2 [] w1 = (Return tt, w2) /\
    write_data writer_default (batch1 ++ batch2) [] world_with_dir =
      (Return tt, w2).
Proof.
  intros batch1 batch2.
  assert (Hstd : standard_paths writer_default = true) by reflexivity.
  assert (Hopen : open_error world_with_dir (data_path writer_default) = None)
    by (vm_compute; reflexivity).
  assert (Hall : forallb formattable batch1 = true) by (vm_compute; reflexivity).
  split; [exact Hstd|].
  exact (X10_batches_compose writer_default batch1 batch2 [] world_with_dir
           Hstd Hopen Hall).
Defined.

(** *** The two writing methods side by side *)

Lemma open_error_appended_ne (p text q : string) (w : world) :
  p <> q -> p <> dirname q ->
  open_error (appended p text w) q = open_error w q.
Proof. intros Hq Hd. unfold appended. by apply open_error_with_file. Qed.

Lemma content_of_appended_ne (p text q : string) (w : world) :
  p <> q -> content_of (appended p text w) q = content_of w q.
Proof.
  intros Hq. unfold content_of, appended. by rewrite lookup_with_file_ne.
Qed.

Lemma appended_logged (p text msg : string) (e : exn) (w : world) :
  appended p text (logged msg e w) = logged msg e (appended p text w).
Proof. reflexivity. Qed.

Lemma fs_appended_commute (p t q u : string) (w : world) :
  p <> q ->
  fs (appended p t (appended q u w)) = fs (appended q u (appended p t w)).
Proof.
  intros Hne. unfold appended at 1 3.
  rewrite !content_of_appended_ne by done.
  unfold appended, with_file, set_fs; cbn [fs].
  by apply insert_insert_ne.
Qed.

Lemma stdout_appended (p text : string) (w : world) :
  stdout (appended p text w) = stdout w.
Proof. reflexivity. Qed.

Lemma stdout_logged (msg : string) (e : exn) (w : world) :
  stdout (logged msg e w) = (stdout w ++ [{| message := msg; cause := e |}])%list.
Proof. reflexivity. Qed.

Lemma fs_logged (msg : string) (e : exn) (w : world) :
  fs (logged msg e w) = fs w.
Proof. reflexivity. Qed.

(** the result of [write_data] on any world, from a text and a failure
    that depend on the records and the context only *)
Lemma write_data_result_shape (self : CSVWriter) (sensor_data : list pydict)
    (simulation_state : pydict) :
  exists (active : bool) (text : string) (err : option exn),
    forall w,
      write_data_result self sensor_data simulation_state w =
      if active then
        match open_error w (data_path self) with
        | Some e => logged data_message e w
        | None =>
            match err with
            | None => appended (data_path self) text w
            | Some e => logged data_message e (appended (data_path self) text w)
            end
        end
      else w.
Proof.
  destruct sensor_data as [|d0 rest].
  - exists false, EmptyString, None. reflexivity.
  - destruct (sample_rows (dict_get simulation_state "simulation_time" (PyInt 0))
                (dict_get simulation_state "step" (PyInt 0)) (d0 :: rest))
      as [rows err] eqn:E.
    exists true, (rows_text rows), err. intros w.
    unfold write_data_result. by rewrite E.
Qed.

(** X11: [write_data] and [write_hazard_event] can be called in either
    order: the files end up the same, and the lines printed are the same
    up to their order. *)
Theorem X11_writes_commute
    (self : CSVWriter) (sensor_data : list pydict)
    (simulation_state hazard_event : pydict) (w : world) :
  standard_paths self = true ->
  exists wd wdh wh whd,
    write_data self sensor_data simulation_state w = (Return tt, wd) /\
    write_hazard_event self hazard_event wd = (Return tt, wdh) /\
    write_hazard_event self hazard_event w = (Return tt, wh) /\
    write_data self sensor_data simulation_state wh = (Return tt, whd) /\
    fs wdh = fs whd /\
    stdout wdh ≡ₚ stdout whd.
Proof.
  intros Hstd.
  destruct (standard_paths_apart self Hstd) as (Hne & Hdh & Hhd).
  assert (Hne' : hazard_path self <> data_path self) by congruence.
  eexists _, _, _, _.
  split; [apply write_data_eq|]. split; [apply write_hazard_event_eq|].
  split; [apply write_hazard_event_eq|]. split; [apply write_data_eq|].
  destruct (write_data_result_shape self sensor_data simulation_state)
    as (active & text & err & Hshape).
  rewrite !Hshape. unfold write_hazard_event_result.
  destruct active; [|by split].
  assert (Hswap : forall (a b : log_line) (l : list log_line),
            ((l ++ [a]) ++ [b])%list ≡ₚ ((l ++ [b]) ++ [a])%list).
  { intros a b l. rewrite <- !app_assoc. f_equiv. apply Permutation_swap. }
  destruct (open_error w (data_path self)) as [ed|] eqn:Hd;
    destruct (open_error w (hazard_path self)) as [eh|] eqn:Hh;
    destruct err as [e|];
    rewrite ?open_error_logged, ?open_error_appended_ne, ?Hd, ?Hh by done;
    rewrite ?appended_logged, ?fs_logged, ?stdout_logged, ?stdout_appended;
    (split; [first [reflexivity | by apply fs_appended_commute]
            |first [reflexivity | apply Hswap]]).
Qed.

Lemma X11_writes_commute_witness :
  let batch := [[(PyStr "id", PyStr "a")]; [(PyStr "y", PyNone)]] in
  let event := [(PyStr "hazard_name", PyStr "flood")] in
  standard_paths writer_default = true /\
  exists wd wdh wh whd,
    write_data writer_default batch [] world_with_dir = (Return tt, wd) /\
    write_hazard_event writer_default event wd = (Return tt, wdh) /\
    write_hazard_event writer_default event world_with_dir = (Return tt, wh) /\
    write_data writer_default batch [] wh = (Return tt, whd) /\
    fs wdh = fs whd /\
    stdout wdh ≡ₚ stdout whd.
Proof.
  intros batch event.
  assert (Hstd : standard_paths writer_default = true) by reflexivity.
  split; [exact Hstd|].
  exact (X11_writes_commute writer_default batch [] event world_with_dir Hstd).
Defined.

(** in append mode a destination that exists is left alone by
    [initialize_files], and its flag is cleared *)
Lemma initialize_files_keeps_existing_samples (self : CSVWriter) (w : world) :
  truthy (append_mode self) = true ->
  standard_paths self = true ->
  present w (data_path self) = true ->
  exists b s' w',
    initialize_files (self, w) = (Return b, (s', w')) /\
    fs w' !! data_path self = fs w !! data_path self /\
    write_header_data s' = false.
Proof.
  intros Ha Hstd Hp.
  destruct (standard_paths_apart self Hstd) as (Hne & _ & _).
  assert (Hne' : hazard_path self <> data_path self) by congruence.
  destruct (after_checks_flags self w) as [Hfd _].
  rewrite Ha, Hp in Hfd. cbn [andb] in Hfd.
  rewrite initialize_files_eq. unfold initialize_files_result.
  rewrite Ha, Hfd. cbn [negb orb]. unfold header_step at 1.
  destruct (header_step _ (hazard_path self) _ w) as [e|w2] eqn:H2.
  - by eexists _, _, _.
  - destruct (header_step_frame _ _ _ _ _ H2) as (Hf & _ & _).
    eexists _, _, _. split; [reflexivity|]. split; [|done]. by apply Hf.
Qed.

(** X12: in append mode, a [write_data] made before [initialize_files]
    creates the samples file without a header, and the [initialize_files]
    that follows neither adds one nor touches the file: it finds the file
    there and clears the flag, so the file starts with its first data
    row. *)
Theorem X12_write_before_initialize_loses_header
    (self : CSVWriter) (sensor_data : list pydict)
    (simulation_state : pydict) (w : world) :
  truthy (append_mode self) = true ->
  standard_paths self = true ->
  present w (data_path self) = false ->
  open_error w (data_path self) = None ->
  sensor_data <> [] ->
  forallb formattable sensor_data = true ->
  let timestamp := dict_get simulation_state "simulation_time" (PyInt 0) in
  let step := dict_get simulation_state "step" (PyInt 0) in
  exists rows w1 b s' w2,
    write_data self sensor_data simulation_state w = (Return tt, w1) /\
    initialize_files (self, w1) = (Return b, (s', w2)) /\
    Forall2 (row_matches timestamp step) sensor_data rows /\
    content_of w2 (data_path self) = rows_text rows /\
    write_header_data s' = false.
Proof.
  intros Ha Hstd Hp Hopen Hne Hall timestamp step.
  destruct (formattable_rows timestamp step sensor_data Hall)
    as (rows & Hrows & Hmatch).
  assert (Hres : write_data_result self sensor_data simulation_state w =
                 appended (data_path self) (rows_text rows) w).
  { unfold write_data_result. destruct sensor_data as [|d0 rest]; [done|].
    rewrite Hopen. fold timestamp step. by rewrite Hrows. }
  assert (Hc0 : content_of w (data_path self) = EmptyString).
  { unfold content_of. unfold present in Hp.
    apply bool_decide_eq_false in Hp.
    destruct (fs w !! data_path self) as [n|] eqn:E; [|done].
    exfalso. apply Hp. by eexists. }
  set (w1 := appended (data_path self) (rows_text rows) w).
  assert (Hp1 : present w1 (data_path self) = true)
    by apply present_with_file.
  destruct (initialize_files_keeps_existing_samples self w1 Ha Hstd Hp1)
    as (b & s' & w2 & Hrun & Hkeep & Hflag).
  exists rows, w1, b, s', w2.
  split; [rewrite write_data_eq; by rewrite Hres|].
  split; [exact Hrun|]. split; [exact Hmatch|]. split; [|exact Hflag].
  unfold content_of at 1. rewrite Hkeep. fold (content_of w1 (data_path self)).
  unfold w1. destruct (appended_frame (data_path self) (rows_text rows) w)
    as (_ & -> & _). by rewrite Hc0.
Qed.

Lemma X12_write_before_initialize_loses_header_witness :
  let batch := [[(PyStr "id", PyStr "a")]] in
  truthy (append_mode writer_default) = true /\
  present world_with_dir (data_path writer_default) = false /\
  exists rows w1 b s' w2,
    write_data writer_default batch [] world_with_dir = (Return tt, w1) /\
    initialize_files (writer_default, w1) = (Return b, (s', w2)) /\
    Forall2 (row_matches (PyInt 0) (PyInt 0)) batch rows /\
    content_of w2 (data_path writer_default) = rows_text rows /\
    write_header_data s' = false.
Proof.
  intros batch.
  assert (Ha : truthy (append_mode writer_default) = true) by reflexivity.
  assert (Hstd : standard_paths writer_default = true) by reflexivity.
  assert (Hp : present world_with_dir (data_path writer_default) = false)
    by (vm_compute; reflexivity).
  assert (Hopen : open_error world_with_dir (data_path writer_default) = None)
    by (vm_compute; reflexivity).
  assert (Hne : batch <> []) by discriminate.
  assert (Hall : forallb formattable batch = true) by (vm_compute; reflexivity).
  split; [exact Ha|]. split; [exact Hp|].
  exact (X12_write_before_initialize_loses_header writer_default batch []
           world_with_dir Ha Hstd Hp Hopen Hne Hall).
Defined.

(** *** Sequences of calls *)

Lemma present_mono_initialize (self : CSVWriter) (w : world) :
  exists b s' w',
    initialize_files (self, w) = (Return b, (s', w')) /\
    s' = after_checks self w /\
    forall q, present w q = true -> present w' q = true.
Proof.
  rewrite initialize_files_eq. unfold initialize_files_result.
  destruct (header_step _ (data_path self) _ w) as [e|w1] eqn:H1.
  - by eexists _, _, _.
  - pose proof (fun q => present_mono_header_step _ _ _ _ _ q H1) as M1.
    destruct (header_step _ (hazard_path self) _ w1) as [e|w2] eqn:H2.
    + eexists _, _, _. split; [reflexivity|]. split; [reflexivity|].
      intros q Hq. rewrite present_logged. by apply M1.
    + pose proof (fun q => present_mono_header_step _ _ _ _ _ q H2) as M2.
      eexists _, _, _. split; [reflexivity|]. split; [reflexivity|].
      intros q Hq. by apply M2, M1.
Qed.

Lemma present_mono_appended (p text : string) (w : world) (q : string) :
  present w q = true -> present (appended p text w) q = true.
Proof.
  intros Hq. unfold appended. destruct (decide (p = q)) as [->|Hne].
  - apply present_with_file.
  - by rewrite present_with_file_ne.
Qed.

Lemma present_mono_writes (self : CSVWriter) (sensor_data : list pydict)
    (simulation_state hazard_event : pydict) (w : world) (q : string) :
  present w q = true ->
  present (write_data_result self sensor_data simulation_state w) q = true /\
  present (write_hazard_event_result self hazard_event w) q = true.
Proof.
  intros Hq. split.
  - destruct (write_data_result_shape self sensor_data simulation_state)
      as (active & text & err & ->).
    destruct active; [|done].
    destruct (open_error w (data_path self)); [done|].
    destruct err; rewrite ?present_logged; by apply present_mono_appended.
  - unfold write_hazard_event_result.
    destruct (open_error w (hazard_path self)); [done|].
    by apply present_mono_appended.
Qed.

(** one call: it returns, and what a constructed object relies on is
    kept *)
Lemma run_call_step (c : call) (s : CSVWriter) (w : world) :
  standard_paths s = true ->
  flags_consistent s w = true ->
  exists s' w',
    run_call c (s, w) = (Return tt, (s', w')) /\
    standard_paths s' = true /\
    flags_consistent s' w' = true /\
    config s' = config s /\ append_mode s' = append_mode s /\
    output_dir s' = output_dir s /\
    data_path s' = data_path s /\ hazard_path s' = hazard_path s /\
    (forall q, q <> data_path s -> q <> hazard_path s ->
               fs w' !! q = fs w !! q) /\
    (forall q, present w q = true -> present w' q = true).
Proof.
  intros Hstd Hc. destruct c as [|sensor_data simulation_state|hazard_event].
  - destruct (initialize_files_frame s w) as (b & s' & w' & Hrun & Hs' & Hframe).
    destruct (flags_consistent_initialize_files s w Hc)
      as (b2 & s2 & w2 & Hrun2 & Hc2).
    destruct (present_mono_initialize s w) as (b3 & s3 & w3 & Hrun3 & _ & Hm).
    rewrite Hrun in Hrun2, Hrun3.
    injection Hrun2 as <- <- <-. injection Hrun3 as <- <- <-.
    exists s', w'. cbn [run_call]. unfold bind. rewrite Hrun.
    split; [reflexivity|]. subst s'.
    destruct (after_checks_fields s w) as (Hcfg & Ho & Hd & Hh & Ha).
    split; [by apply after_checks_standard|].
    by repeat (split; [done|]).
  - exists s, (write_data_result s sensor_data simulation_state w).
    cbn [run_call]. unfold bind, get_fst, on_snd. cbn [fst snd].
    rewrite write_data_eq.
    destruct (flags_consistent_writes s w sensor_data simulation_state []
                Hc) as [Hc' _].
    repeat (split; [done|]). split.
    + intros q Hq _. by apply write_data_frame.
    + intros q Hq.
      by apply (present_mono_writes s sensor_data simulation_state [] w q).
  - exists s, (write_hazard_event_result s hazard_event w).
    cbn [run_call]. unfold bind, get_fst, on_snd. cbn [fst snd].
    rewrite write_hazard_event_eq.
    destruct (flags_consistent_writes s w [] [] hazard_event Hc) as [_ Hc'].
    repeat (split; [done|]). split.
    + intros q _ Hq. by apply write_hazard_event_frame.
    + intros q Hq. by apply (present_mono_writes s [] [] hazard_event w q).
Qed.

(** X13: whatever calls of the three methods are made on a constructed
    object, in whatever order, none raises; the object keeps its
    configuration, its paths and its append mode; its header flags stay
    consistent with the files; no entry other than the two destinations
    changes (the output directory in particular), and nothing that exists
    is removed. *)
Theorem X13_calls_keep_the_object_sound
    (calls : list call) (s : CSVWriter) (w : world) :
  standard_paths s = true ->
  flags_consistent s w = true ->
  exists s' w',
    run_calls calls (s, w) = (Return tt, (s', w')) /\
    standard_paths s' = true /\
    flags_consistent s' w' = true /\
    config s' = config s /\ append_mode s' = append_mode s /\
    fs w' !! output_dir s = fs w !! output_dir s /\
    (forall q, q <> data_path s -> q <> hazard_path s ->
               fs w' !! q = fs w !! q) /\
    (forall q, present w q = true -> present w' q = true).
Proof.
  revert s w. induction calls as [|c calls IH]; intros s w Hstd Hc.
  - exists s, w. by repeat split.
  - destruct (run_call_step c s w Hstd Hc)
      as (s1 & w1 & Hrun & Hstd1 & Hc1 & Hcfg & Ha & Ho & Hd & Hh & Hf & Hm).
    destruct (IH s1 w1 Hstd1 Hc1)
      as (s2 & w2 & Hrun2 & Hstd2 & Hc2 & Hcfg2 & Ha2 & Hdir2 & Hf2 & Hm2).
    exists s2, w2. unfold run_calls in *. cbn [for_each]. unfold bind at 1.
    rewrite Hrun, Hrun2.
    assert (Hframe : forall q, q <> data_path s -> q <> hazard_path s ->
                               fs w2 !! q = fs w !! q).
    { intros q Hq1 Hq2. rewrite Hf2 by (by rewrite ?Hd, ?Hh). by apply Hf. }
    split; [reflexivity|]. split; [done|]. split; [done|].
    split; [congruence|]. split; [congruence|]. split; [|split].
    + destruct (standard_paths_eq s Hstd) as (Hos & Hds & Hhs).
      apply Hframe; rewrite Hos; [rewrite Hds|rewrite Hhs]; done.
    + exact Hframe.
    + intros q Hq. by apply Hm2, Hm.
Qed.

Lemma X13_calls_keep_the_object_sound_witness :
  let calls :=
    [CallWriteData [[(PyStr "id", PyStr "a")]] [];
     CallInitialize;
     CallWriteHazard [(PyStr "hazard_name", PyStr "flood")];
     CallInitialize] in
  standard_paths writer_default = true /\
  flags_consistent writer_default world_with_dir = true /\
  exists s' w',
    run_calls calls (writer_default, world_with_dir) = (Return tt, (s', w')) /\
    standard_paths s' = true /\
    flags_consistent s' w' = true /\
    config s' = config writer_default /\
    append_mode s' = append_mode writer_default /\
    fs w' !! output_dir writer_default =
      fs world_with_dir !! output_dir writer_default /\
    (forall q, q <> data_path writer_default ->
               q <> hazard_path writer_default ->
               fs w' !! q = fs world_with_dir !! q) /\
    (forall q, present world_with_dir q = true -> present w' q = true).
Proof.
  intros calls.
  assert (Hstd : standard_paths writer_default = true) by reflexivity.
  assert (Hc : flags_consistent writer_default world_with_dir = true)
    by reflexivity.
  split; [exact Hstd|]. split; [exact Hc|].
  exact (X13_calls_keep_the_object_sound calls writer_default world_with_dir
           Hstd Hc).
Defined.

Lemma content_of_absent (w : world) (p : string) :
  present w p = false -> content_of w p = EmptyString.
Proof.
  unfold present, content_of. intros Hp. apply bool_decide_eq_false in Hp.
  destruct (fs w !! p) as [n|] eqn:E; [|done].
  exfalso. apply Hp. by eexists.
Qed.

(** in append mode [initialize_files] leaves alone whatever exists *)
Lemma initialize_files_keeps_existing (self : CSVWriter) (w : world)
    (p : string) :
  truthy (append_mode self) = true ->
  standard_paths self = true ->
  present w p = true ->
  exists b s' w',
    initialize_files (self, w) = (Return b, (s', w')) /\
    fs w' !! p = fs w !! p.
Proof.
  intros Ha Hstd Hp.
  destruct (standard_paths_apart self Hstd) as (Hne & _ & _).
  destruct (after_checks_flags self w) as [Hfd Hfh].
  rewrite Ha in Hfd, Hfh. cbn [andb] in Hfd, Hfh.
  rewrite initialize_files_eq. unfold initialize_files_result.
  rewrite Ha, Hfd, Hfh. cbn [negb orb].
  destruct (header_step _ (data_path self) _ w) as [e|w1] eqn:H1.
  { by eexists _, _, _. }
  destruct (header_step_append _ _ _ _ _ H1) as (_ & Hsame1 & Hframe1 & _).
  assert (Hp1 : fs w1 !! p = fs w !! p).
  { destruct (decide (data_path self = p)) as [<-|Hq].
    - by rewrite (Hsame1 Hp).
    - by apply Hframe1. }
  assert (Hph : present w1 (hazard_path self) = present w (hazard_path self)).
  { unfold present. by rewrite Hframe1. }
  rewrite <- Hph.
  destruct (header_step _ (hazard_path self) _ w1) as [e|w2] eqn:H2.
  { by eexists _, _, _. }
  destruct (header_step_append _ _ _ _ _ H2) as (_ & Hsame2 & Hframe2 & _).
  eexists _, _, _. split; [reflexivity|]. rewrite <- Hp1.
  destruct (decide (hazard_path self = p)) as [<-|Hq].
  - rewrite Hsame2; [done|]. unfold present in *. by rewrite Hp1.
  - by apply Hframe2.
Qed.

(** one call never shortens or rewrites a file, provided
    [initialize_files] is only called in append mode *)
Lemma run_call_grows (c : call) (s s' : CSVWriter) (w w' : world)
    (p : string) :
  standard_paths s = true ->
  (c = CallInitialize -> truthy (append_mode s) = true) ->
  run_call c (s, w) = (Return tt, (s', w')) ->
  exists suffix, content_of w' p = content_of w p +:+ suffix.
Proof.
  intros Hstd Happ Hrun.
  destruct c as [|sensor_data simulation_state|hazard_event].
  - specialize (Happ eq_refl).
    destruct (present w p) eqn:Hp.
    + destruct (initialize_files_keeps_existing s w p Happ Hstd Hp)
        as (b & s1 & w1 & Hinit & Hkeep).
      cbn [run_call] in Hrun. unfold bind in Hrun. rewrite Hinit in Hrun.
      injection Hrun as <- <-. exists EmptyString.
      unfold content_of. by rewrite Hkeep, append_empty_r.
    + exists (content_of w' p). by rewrite (content_of_absent w p Hp).
  - cbn [run_call] in Hrun. unfold bind, get_fst, on_snd in Hrun.
    cbn [fst snd] in Hrun. rewrite write_data_eq in Hrun.
    injection Hrun as <- <-.
    destruct (write_data_result_shape s sensor_data simulation_state)
      as (active & text & err & ->).
    assert (Happended : exists suffix,
              content_of (appended (data_path s) text w) p =
              content_of w p +:+ suffix).
    { destruct (decide (data_path s = p)) as [<-|Hq].
      - exists text. apply (appended_frame (data_path s)).
      - exists EmptyString.
        by rewrite content_of_appended_ne, append_empty_r. }
    destruct active; [|exists EmptyString; by rewrite append_empty_r].
    destruct (open_error w (data_path s));
      [exists EmptyString; by rewrite append_empty_r|].
    by destruct err.
  - cbn [run_call] in Hrun. unfold bind, get_fst, on_snd in Hrun.
    cbn [fst snd] in Hrun. rewrite write_hazard_event_eq in Hrun.
    injection Hrun as <- <-. unfold write_hazard_event_result.
    destruct (open_error w (hazard_path s));
      [exists EmptyString; by rewrite append_empty_r|].
    destruct (decide (hazard_path s = p)) as [<-|Hq].
    + eexists. apply (appended_frame (hazard_path s)).
    + exists EmptyString.
      by rewrite content_of_appended_ne, append_empty_r.
Qed.

(** X14: the files only grow.  Over any sequence of calls in which
    [initialize_files] occurs only if the object is in append mode, what a
    file holds at the end starts with what it held at the beginning: no
    row already written is lost or altered. *)
Theorem X14_calls_only_append
    (calls : list call) (s : CSVWriter) (w : world) :
  standard_paths s = true ->
  flags_consistent s w = true ->
  (In CallInitialize calls -> truthy (append_mode s) = true) ->
  exists s' w',
    run_calls calls (s, w) = (Return tt, (s', w')) /\
    forall p, exists suffix, content_of w' p = content_of w p +:+ suffix.
Proof.
  revert s w. induction calls as [|c calls IH]; intros s w Hstd Hc Happ.
  - exists s, w. split; [reflexivity|]. intros p. exists EmptyString.
    by rewrite append_empty_r.
  - destruct (run_call_step c s w Hstd Hc)
      as (s1 & w1 & Hrun & Hstd1 & Hc1 & _ & Ha & _).
    assert (Happ1 : In CallInitialize calls -> truthy (append_mode s1) = true).
    { intros Hin. rewrite Ha. apply Happ. by right. }
    destruct (IH s1 w1 Hstd1 Hc1 Happ1) as (s2 & w2 & Hrun2 & Hgrow2).
    exists s2, w2. unfold run_calls in *. cbn [for_each]. unfold bind at 1.
    rewrite Hrun, Hrun2. split; [reflexivity|]. intros p.
    assert (Hfirst : c = CallInitialize -> truthy (append_mode s) = true).
    { intros ->. apply Happ. by left. }
    destruct (run_call_grows c s s1 w w1 p Hstd Hfirst Hrun) as [t1 H1].
    destruct (Hgrow2 p) as [t2 H2].
    exists (t1 +:+ t2). by rewrite H2, H1, append_assoc.
Qed.

Lemma X14_calls_only_append_witness :
  let w :=
    {| fs := {[ "output_data" := Dir;
                "output_data/simulation_data.csv" := File "kept" ]};
       denied := ∅; stdout := [] |} in
  let calls :=
    [CallInitialize;
     CallWriteData [[(PyStr "id", PyStr "a")]] [];
     CallInitialize;
     CallWriteHazard [(PyStr "hazard_name", PyStr "flood")]] in
  standard_paths writer_default = true /\
  flags_consistent writer_default w = true /\
  (In CallInitialize calls -> truthy (append_mode writer_default) = true) /\
  exists s' w',
    run_calls calls (writer_default, w) = (Return tt, (s', w')) /\
    forall p, exists suffix, content_of w' p = content_of w p +:+ suffix.
Proof.
  intros w calls.
  assert (Hstd : standard_paths writer_default = true) by reflexivity.
  assert (Hc : flags_consistent writer_default w = true) by reflexivity.
  assert (Happ : In CallInitialize calls ->
                 truthy (append_mode writer_default) = true)
    by (intros _; reflexivity).
  split; [exact Hstd|]. split; [exact Hc|]. split; [exact Happ|].
  exact (X14_calls_only_append calls writer_default w Hstd Hc Happ).
Defined.

(** *** From construction to the first rows *)

Lemma open_error_in_output_dir (w : world) (p : string) :
  dirname p = "output_data" ->
  fs w !! "output_data" = Some Dir ->
  fs w !! p <> Some Dir ->
  p ∉ denied w ->
  open_error w p = None.
Proof.
  intros Hdir Hd Hp Hden. unfold open_error, parent_error.
  rewrite Hdir. cbn [String.eqb Ascii.eqb Bool.eqb]. rewrite Hd.
  rewrite bool_decide_eq_false_2 by done.
  destruct (fs w !! p) as [[|c]|]; done.
Qed.

(** X15: on a file system where the output directory is missing or is a
    directory, the two destinations do not exist and nothing is refused,
    construction, [initialize_files], one [write_data] of records that
    format and one [write_hazard_event] all succeed, in append mode or
    not; afterwards the samples file holds its header followed by one row
    per record, the events file its header followed by the row of the
    event, and nothing has been printed. *)
Theorem X15_fresh_start
    (d sim : pydict) (w : world) (sensor_data : list pydict)
    (simulation_state hazard_event : pydict) :
  dict_lookup "simulation" d = Some (PyDict sim) ->
  fs w !! "output_data" = None \/ fs w !! "output_data" = Some Dir ->
  fs w !! "output_data/simulation_data.csv" = None ->
  fs w !! "output_data/hazard_events.csv" = None ->
  denied w = ∅ ->
  forallb formattable sensor_data = true ->
  let timestamp := dict_get simulation_state "simulation_time" (PyInt 0) in
  let step := dict_get simulation_state "step" (PyInt 0) in
  exists s w0 w1 w2 w3 rows,
    __init__ (PyDict d) w = (Return s, w0) /\
    initialize_files (s, w0) = (Return true, (s, w1)) /\
    write_data s sensor_data simulation_state w1 = (Return tt, w2) /\
    write_hazard_event s hazard_event w2 = (Return tt, w3) /\
    Forall2 (row_matches timestamp step) sensor_data rows /\
    content_of w3 (data_path s) =
      Csv.writerow data_header +:+ rows_text rows /\
    content_of w3 (hazard_path s) =
      Csv.writerow hazard_header +:+ Csv.writerow (hazard_row hazard_event) /\
    stdout w3 = stdout w.
Proof.
  intros Hsim Hdir Hnd Hnh Hden Hall timestamp step.
  set (dp := "output_data/simulation_data.csv") in *.
  set (hp := "output_data/hazard_events.csv") in *.
  destruct (formattable_rows timestamp step sensor_data Hall)
    as (rows & Hrows & Hmatch).
  (* construction *)
  set (mode := dict_get sim "csv_append_mode" (PyBool true)).
  set (s := new_writer (PyDict d) mode).
  assert (Hnotin : forall q : string, q ∉ denied w).
  { intros q. rewrite Hden. apply not_elem_of_empty. }
  assert (Hens : exists w0, ensure_output_dir w = inr w0 /\
                            fs w0 !! "output_data" = Some Dir /\
                            fs w0 !! dp = None /\ fs w0 !! hp = None /\
                            denied w0 = denied w /\ stdout w0 = stdout w).
  { unfold ensure_output_dir, present. destruct Hdir as [Hd|Hd]; rewrite Hd.
    - rewrite bool_decide_eq_false_2 by (by intros [? ?]).
      rewrite bool_decide_eq_false_2 by apply Hnotin.
      eexists. split; [reflexivity|]. unfold set_fs; cbn [fs denied stdout].
      rewrite lookup_insert_eq, !lookup_insert_ne by done. done.
    - rewrite bool_decide_eq_true_2 by (by eexists). by exists w. }
  destruct Hens as (w0 & Hens & Hd0 & Hnd0 & Hnh0 & Hden0 & Hout0).
  assert (Hnotin0 : forall q : string, q ∉ denied w0).
  { intros q. rewrite Hden0. apply Hnotin. }
  assert (Hinit : __init__ (PyDict d) w = (Return s, w0)).
  { rewrite init_eq, Hens. unfold subscript. rewrite Hsim. reflexivity. }
  (* the two headers *)
  assert (Hod : open_error w0 dp = None).
  { apply open_error_in_output_dir; [reflexivity|done| |done]. by rewrite Hnd0. }
  set (w1a := with_file dp (Csv.writerow data_header) w0).
  assert (Hoh : open_error w1a hp = None).
  { unfold w1a. rewrite open_error_with_file by done.
    apply open_error_in_output_dir; [reflexivity|done| |done]. by rewrite Hnh0. }
  set (w1 := with_file hp (Csv.writerow hazard_header) w1a).
  assert (Hpd : present w0 dp = false).
  { unfold present. rewrite Hnd0. by apply bool_decide_eq_false_2; intros [? ?]. }
  assert (Hph : present w0 hp = false).
  { unfold present. rewrite Hnh0. by apply bool_decide_eq_false_2; intros [? ?]. }
  assert (Hrun : initialize_files (s, w0) = (Return true, (s, w1))).
  { rewrite initialize_files_eq. unfold initialize_files_result.
    assert (Hs : after_checks s w0 = s).
    { unfold after_checks. cbn [data_path hazard_path s new_writer].
      fold dp hp. by rewrite Hpd, Hph, !andb_false_r. }
    rewrite Hs. cbn [write_header_data write_header_hazard data_path
                     hazard_path s new_writer].
    rewrite !orb_true_r. unfold header_step. fold dp hp.
    rewrite Hod. fold w1a. by rewrite Hoh. }
  (* the batch *)
  assert (Hod1 : open_error w1 dp = None).
  { unfold w1. rewrite open_error_with_file by done.
    unfold w1a. by apply open_error_reopen. }
  assert (Hcd1 : content_of w1 dp = Csv.writerow data_header).
  { unfold content_of, w1. rewrite lookup_with_file_ne by done.
    unfold w1a. by rewrite lookup_with_file_eq. }
  set (w2 := write_data_result s sensor_data simulation_state w1).
  assert (Hw2 : content_of w2 dp = Csv.writerow data_header +:+ rows_text rows /\
                content_of w2 hp = Csv.writerow hazard_header /\
                open_error w2 hp = None /\ stdout w2 = stdout w).
  { assert (Hch1 : content_of w1 hp = Csv.writerow hazard_header).
    { unfold content_of, w1. by rewrite lookup_with_file_eq. }
    assert (Hoh1 : open_error w1 hp = None).
    { unfold w1. by apply open_error_reopen. }
    unfold w2, write_data_result. cbn [data_path s new_writer]. fold dp.
    destruct sensor_data as [|d0 rest].
    - injection Hrows as <-. cbn [rows_text fold_right].
      by rewrite append_empty_r.
    - rewrite Hod1. fold timestamp step. rewrite Hrows.
      destruct (appended_frame dp (rows_text rows) w1) as (_ & -> & _ & ->).
      rewrite content_of_appended_ne, open_error_appended_ne by done.
      by rewrite Hcd1. }
  destruct Hw2 as (Hcd2 & Hch2 & Hoh2 & Hout2).
  exists s, w0, w1, w2, (write_hazard_event_result s hazard_event w2), rows.
  split; [exact Hinit|]. split; [exact Hrun|].
  split; [apply write_data_eq|]. split; [apply write_hazard_event_eq|].
  split; [exact Hmatch|].
  unfold write_hazard_event_result. cbn [data_path hazard_path s new_writer].
  fold dp hp. rewrite Hoh2.
  destruct (appended_frame hp (Csv.writerow (hazard_row hazard_event)) w2)
    as (_ & -> & _ & ->).
  rewrite content_of_appended_ne by done. by rewrite Hcd2, Hch2, Hout2.
Qed.

Lemma X15_fresh_start_witness :
  let d := [(PyStr "simulation", PyDict [(PyStr "csv_append_mode", PyBool false)])] in
  let batch :=
    [[(PyStr "id", PyStr "veh0"); (PyStr "speed", PyInt 5)];
     [(PyStr "id", PyStr "veh1")]] in
  let context := [(PyStr "simulation_time", PyInt 10); (PyStr "step", PyInt 3)] in
  let event := [(PyStr "hazard_name", PyStr "pothole"); (PyStr "timestamp", PyInt 12)] in
  exists s w0 w1 w2 w3 rows,
    __init__ (PyDict d) empty_world = (Return s, w0) /\
    initialize_files (s, w0) = (Return true, (s, w1)) /\
    write_data s batch context w1 = (Return tt, w2) /\
    write_hazard_event s event w2 = (Return tt, w3) /\
    Forall2 (row_matches (PyInt 10) (PyInt 3)) batch rows /\
    content_of w3 (data_path s) =
      Csv.writerow data_header +:+ rows_text rows /\
    content_of w3 (hazard_path s) =
      Csv.writerow hazard_header +:+ Csv.writerow (hazard_row event) /\
    stdout w3 = stdout empty_world.
Proof.
  intros d batch context event.
  assert (H1 : dict_lookup "simulation" d =
               Some (PyDict [(PyStr "csv_append_mode", PyBool false)]))
    by reflexivity.
  assert (H2 : fs empty_world !! "output_data" = None \/
               fs empty_world !! "output_data" = Some Dir)
    by (left; reflexivity).
  assert (H3 : fs empty_world !! "output_data/simulation_data.csv" = None)
    by reflexivity.
  assert (H4 : fs empty_world !! "output_data/hazard_events.csv" = None)
    by reflexivity.
  assert (H5 : denied empty_world = ∅) by reflexivity.
  assert (H6 : forallb formattable batch = true) by (vm_compute; reflexivity).
  exact (X15_fresh_start d _ empty_world batch context event
           H1 H2 H3 H4 H5 H6).
Defined.

(** *** When a header block runs *)

Lemma header_block_runs_after_checks (self : CSVWriter) (w : world) :
  negb (truthy (append_mode self)) || write_header_data (after_checks self w) =
    header_block_runs self w (write_header_data self) (data_path self) /\
  negb (truthy (append_mode self)) || write_header_hazard (after_checks self w) =
    header_block_runs self w (write_header_hazard self) (hazard_path self).
Proof.
  destruct (after_checks_flags self w) as [-> ->]. unfold header_block_runs.
  destruct (truthy (append_mode self)), (present w (data_path self)),
    (present w (hazard_path self)), (write_header_data self),
    (write_header_hazard self); by split.
Qed.

(** [initialize_files] in terms of the blocks that run *)
Lemma initialize_files_blocks (self : CSVWriter) (w : world) :
  initialize_files (self, w) =
    match header_step
            (header_block_runs self w (write_header_data self) (data_path self))
            (data_path self) data_header w with
    | inl e => (Return false, (after_checks self w, logged init_message e w))
    | inr w1 =>
        match header_step
                (header_block_runs self w (write_header_hazard self)
                   (hazard_path self))
                (hazard_path self) hazard_header w1 with
        | inl e => (Return false, (after_checks self w, logged init_message e w1))
        | inr w2 => (Return true, (after_checks self w, w2))
        end
    end.
Proof.
  rewrite initialize_files_eq. unfold initialize_files_result.
  destruct (header_block_runs_after_checks self w) as [-> ->].
  destruct (header_step _ (data_path self) _ w) as [e|w1]; [done|].
  by destruct (header_step _ (hazard_path self) _ w1).
Qed.

(** nothing can be opened under a directory that is missing *)
Lemma open_error_no_directory (self : CSVWriter) (w : world) :
  standard_paths self = true ->
  fs w !! output_dir self = None ->
  open_error w (data_path self) = Some (OSError ENOENT (data_path self)) /\
  open_error w (hazard_path self) = Some (OSError ENOENT (hazard_path self)).
Proof.
  intros Hstd. destruct (standard_paths_eq self Hstd) as (-> & -> & ->).
  intros Hdir. unfold open_error, parent_error.
  change (dirname "output_data/simulation_data.csv") with "output_data".
  change (dirname "output_data/hazard_events.csv") with "output_data".
  change (String.eqb "output_data" EmptyString) with false.
  cbv iota. by rewrite Hdir.
Qed.

(** *** The directory *)

(** C1 (amended): the output directory is ensured by the constructor, which
    leaves an entry at the output path and makes the directory when nothing
    was there.  [initialize_files] returns without ever creating or
    changing that entry.  Called where the directory is missing it changes
    no entry at all, and it returns [False] when one of its two header
    blocks runs and [True] when none does; for an object whose samples flag
    is set, as on a new object, and with nothing at the samples path, it
    returns [False]. *)
Theorem C1_directory_ensured_by_constructor
    (cfg : pyval) (w : world) (s : CSVWriter) (w1 : world) :
  __init__ cfg w = (Return s, w1) ->
  present w1 (output_dir s) = true /\
  (present w (output_dir s) = false -> fs w1 !! output_dir s = Some Dir) /\
  (forall (s2 : CSVWriter) (w2 : world),
     standard_paths s2 = true ->
     exists b s3 w3,
       initialize_files (s2, w2) = (Return b, (s3, w3)) /\
       fs w3 !! output_dir s2 = fs w2 !! output_dir s2) /\
  (forall (s2 : CSVWriter) (w2 : world),
     standard_paths s2 = true ->
     fs w2 !! output_dir s2 = None ->
     exists s3 w3,
       initialize_files (s2, w2) =
         (Return
            (negb (header_block_runs s2 w2 (write_header_data s2) (data_path s2) ||
                   header_block_runs s2 w2 (write_header_hazard s2)
                     (hazard_path s2))),
          (s3, w3)) /\
       fs w3 = fs w2) /\
  (forall (s2 : CSVWriter) (w2 : world),
     standard_paths s2 = true ->
     fs w2 !! output_dir s2 = None ->
     write_header_data s2 = true ->
     present w2 (data_path s2) = false ->
     exists s3 w3,
       initialize_files (s2, w2) = (Return false, (s3, w3)) /\
       fs w3 = fs w2).
Proof.
  intros Hinit.
  destruct (init_returns _ _ _ _ Hinit) as (Hdir & sim & mode & _ & _ & ->).
  destruct (ensure_output_dir_present _ _ Hdir) as (Hp & Hnew & _ & _).
  cbn [output_dir new_writer]. split; [done|]. split; [done|].
  assert (Hmissing : forall (s2 : CSVWriter) (w2 : world),
     standard_paths s2 = true ->
     fs w2 !! output_dir s2 = None ->
     exists s3 w3,
       initialize_files (s2, w2) =
         (Return
            (negb (header_block_runs s2 w2 (write_header_data s2) (data_path s2) ||
                   header_block_runs s2 w2 (write_header_hazard s2)
                     (hazard_path s2))),
          (s3, w3)) /\
       fs w3 = fs w2).
  { intros s2 w2 Hstd Hnone.
    destruct (open_error_no_directory s2 w2 Hstd Hnone) as [Hod Hoh].
    rewrite initialize_files_blocks. unfold header_step.
    destruct (header_block_runs s2 w2 (write_header_data s2) (data_path s2)).
    - rewrite Hod. by eexists _, _.
    - destruct (header_block_runs s2 w2 (write_header_hazard s2)
                  (hazard_path s2)).
      + rewrite Hoh. by eexists _, _.
      + by eexists _, _. }
  split; [|split; [exact Hmissing|]].
  - intros s2 w2 Hstd.
    destruct (standard_paths_eq s2 Hstd) as (Ho & Hd & Hh).
    destruct (initialize_files_frame s2 w2) as (b & s3 & w3 & Hrun & _ & Hframe).
    exists b, s3, w3. split; [done|].
    apply Hframe; rewrite Ho; [rewrite Hd | rewrite Hh]; done.
  - intros s2 w2 Hstd Hnone Hflag Habsent.
    destruct (Hmissing s2 w2 Hstd Hnone) as (s3 & w3 & Hrun & Hfs).
    exists s3, w3. split; [|done]. rewrite Hrun.
    unfold header_block_runs. rewrite Hflag, Habsent.
    by rewrite orb_true_r.
Qed.

Lemma C1_directory_ensured_by_constructor_witness :
  __init__ config_default empty_world = (Return writer_default, world_with_dir) /\
  present world_with_dir (output_dir writer_default) = true /\
  (present empty_world (output_dir writer_default) = false ->
   fs world_with_dir !! output_dir writer_default = Some Dir) /\
  exists s3 w3,
    initialize_files (writer_default, empty_world) = (Return false, (s3, w3)) /\
    fs w3 = fs empty_world.
Proof.
  assert (H : __init__ config_default empty_world =
              (Return writer_default, world_with_dir))
    by (vm_compute; reflexivity).
  split; [exact H|].
  destruct (C1_directory_ensured_by_constructor
              config_default empty_world writer_default world_with_dir H)
    as (Hp & Hnew & _ & _ & Hfalse).
  split; [exact Hp|]. split; [exact Hnew|].
  apply (Hfalse writer_default empty_world); reflexivity.
Defined.

(** *** The headers *)

(** C2 (as stated) fails: an object made where the directory exists and
    initialised twice has both header flags cleared by the second call,
    which found the two files.  Once the files have been removed a header
    is needed for the samples file, which can be opened; [initialize_files]
    returns [True] and writes nothing. *)
Lemma C2_cleared_flag_skips_header :
  let s := set_write_header_hazard false
             (set_write_header_data false writer_default) in
  __init__ config_default world_with_dir = (Return writer_default, world_with_dir) /\
  (exists w1,
     initialize_files (writer_default, world_with_dir) =
       (Return true, (writer_default, w1)) /\
     initialize_files (writer_default, w1) = (Return true, (s, w1))) /\
  truthy (append_mode s) = true /\
  present world_with_dir (data_path s) = false /\
  header_needed s world_with_dir (data_path s) = true /\
  open_error world_with_dir (data_path s) = None /\
  initialize_files (s, world_with_dir) = (Return true, (s, world_with_dir)) /\
  fs world_with_dir !! data_path s = None.
Proof.
  intros s. split; [vm_compute; reflexivity|].
  split; [eexists; split; vm_compute; reflexivity|].
  repeat split; vm_compute; reflexivity.
Qed.

(** C2 (amended): for a constructed object and when each destination whose
    header block runs can be opened, [initialize_files] returns [True] and
    prints nothing; for each destination it leaves a file holding the
    header row alone when the block runs, whatever the file held before,
    and leaves the entry untouched otherwise.  The block of a destination
    runs when not in append mode, or when nothing exists at the path and
    the header flag of the object for it is still set; the call clears the
    flag of a destination that it finds existing in append mode.  As long
    as each cleared flag belongs to an existing destination, the block runs
    exactly when a header is needed: not in append mode, or in append mode
    with nothing at the path. *)
Theorem C2_header_written_when_block_runs (self : CSVWriter) (w : world) :
  standard_paths self = true ->
  (header_block_runs self w (write_header_data self) (data_path self) = true ->
   open_error w (data_path self) = None) ->
  (header_block_runs self w (write_header_hazard self) (hazard_path self) = true ->
   open_error w (hazard_path self) = None) ->
  (exists s' w',
     initialize_files (self, w) = (Return true, (s', w')) /\
     fs w' !! data_path self =
       (if header_block_runs self w (write_header_data self) (data_path self)
        then Some (File (Csv.writerow data_header))
        else fs w !! data_path self) /\
     fs w' !! hazard_path self =
       (if header_block_runs self w (write_header_hazard self) (hazard_path self)
        then Some (File (Csv.writerow hazard_header))
        else fs w !! hazard_path self) /\
     (forall q, q <> data_path self -> q <> hazard_path self ->
                fs w' !! q = fs w !! q) /\
     stdout w' = stdout w /\
     write_header_data s' =
       (if truthy (append_mode self) && present w (data_path self) then false
        else write_header_data self) /\
     write_header_hazard s' =
       (if truthy (append_mode self) && present w (hazard_path self) then false
        else write_header_hazard self)) /\
  (flags_consistent self w = true ->
   header_block_runs self w (write_header_data self) (data_path self) =
     header_needed self w (data_path self) /\
   header_block_runs self w (write_header_hazard self) (hazard_path self) =
     header_needed self w (hazard_path self)).
Proof.
  intros Hstd Hod Hoh.
  destruct (standard_paths_apart self Hstd) as (Hne & Hdh & Hhd).
  split.
  - exists (after_checks self w).
    destruct (after_checks_flags self w) as [Hfd Hfh].
    rewrite initialize_files_blocks. unfold header_step.
    destruct (header_block_runs self w (write_header_data self) (data_path self));
      destruct (header_block_runs self w (write_header_hazard self)
                  (hazard_path self)).
    + rewrite (Hod eq_refl), open_error_with_file, (Hoh eq_refl) by done.
      eexists. split; [reflexivity|].
      rewrite lookup_with_file_eq, lookup_with_file_ne, lookup_with_file_eq by done.
      split; [done|]. split; [done|]. split; [|done].
      intros q Hq1 Hq2. by rewrite !lookup_with_file_ne.
    + rewrite (Hod eq_refl).
      eexists. split; [reflexivity|].
      rewrite lookup_with_file_eq, lookup_with_file_ne by done.
      split; [done|]. split; [done|]. split; [|done].
      intros q Hq1 Hq2. by rewrite !lookup_with_file_ne.
    + rewrite (Hoh eq_refl).
      eexists. split; [reflexivity|].
      rewrite lookup_with_file_eq, lookup_with_file_ne by done.
      split; [done|]. split; [done|]. split; [|done].
      intros q Hq1 Hq2. by rewrite !lookup_with_file_ne.
    + eexists. split; [reflexivity|]. by repeat split.
  - intros Hc.
    destruct (header_block_runs_after_checks self w) as [<- <-].
    by apply header_block_runs_when_needed.
Qed.

Lemma C2_header_written_when_block_runs_witness :
  standard_paths writer_default = true /\
  header_block_runs writer_default world_with_dir
    (write_header_data writer_default) (data_path writer_default) = true /\
  header_block_runs writer_default world_with_dir
    (write_header_hazard writer_default) (hazard_path writer_default) = true /\
  open_error world_with_dir (data_path writer_default) = None /\
  open_error world_with_dir (hazard_path writer_default) = None /\
  exists s' w',
    initialize_files (writer_default, world_with_dir) = (Return true, (s', w')) /\
    fs w' !! data_path writer_default = Some (File (Csv.writerow data_header)) /\
    fs w' !! hazard_path writer_default = Some (File (Csv.writerow hazard_header)) /\
    stdout w' = stdout world_with_dir.
Proof.
  assert (Hstd : standard_paths writer_default = true) by reflexivity.
  assert (Hod : open_error world_with_dir (data_path writer_default) = None)
    by (vm_compute; reflexivity).
  assert (Hoh : open_error world_with_dir (hazard_path writer_default) = None)
    by (vm_compute; reflexivity).
  split; [exact Hstd|]. split; [reflexivity|]. split; [reflexivity|].
  split; [exact Hod|]. split; [exact Hoh|].
  destruct (C2_header_written_when_block_runs writer_default world_with_dir
              Hstd (fun _ => Hod) (fun _ => Hoh))
    as ((s' & w' & Hrun & Hd & Hh & _ & Hout & _) & _).
  exists s', w'. split; [exact Hrun|].
  split; [exact Hd|]. split; [exact Hh|]. exact Hout.
Defined.

(** *** The handlers *)

Lemma bind_returns {S A B : Type} (c : M S A) (k : A -> M S B) (s s' : S) (b : B) :
  bind c k s = (Return b, s') ->
  exists a s1, c s = (Return a, s1) /\ k a s1 = (Return b, s').
Proof.
  unfold bind. destruct (c s) as [[a|e] s1]; [|done].
  intros H. by exists a, s1.
Qed.

(** whatever [open] and [write] do, the body of [initialize_files] returns
    nothing but [True] *)
Lemma initialize_files_body_returns
    (open_ : string -> file_mode -> M world unit)
    (write_ : string -> string -> M world unit)
    (st st' : CSVWriter * world) (r : bool) :
  initialize_files_body open_ write_ st = (Return r, st') -> r = true.
Proof.
  unfold initialize_files_body. intros H.
  repeat (apply bind_returns in H as (? & ? & _ & H)).
  by injection H as <- _.
Qed.

(** the three methods are the guarded bodies run on the file operations of
    the model *)
Lemma methods_are_guarded :
  initialize_files = initialize_files_with open_file file_write /\
  write_data = write_data_with open_file file_write /\
  write_hazard_event = write_hazard_event_with open_file file_write.
Proof. by repeat split. Qed.

(** C8 (amended): every exception raised inside the [try] block of
    [initialize_files], [write_data] or [write_hazard_event] is caught by
    the handler of the method, whatever raises it: [open], a write through
    the open file, or the formatting of a value.  This is stated for any
    behaviour of [open] and of the write, the three methods being the
    instance at the file operations of the model.  The handler prints one
    line, the message of the method followed by the exception, on top of
    what the body had done when it raised.  [initialize_files] then returns
    [False], and it returns [False] in no other case; [write_data] and
    [write_hazard_event] return normally; no exception leaves any of the
    three.  With the file operations of the model: a header block that runs
    and whose [open] fails makes [initialize_files] return [False] with
    that exception printed; an [open] that fails in a writing method leaves
    everything as it was but for the printed line; a value that fails to
    format in [write_data] is printed after the rows before it have been
    written; and where nothing fails nothing is printed. *)
Theorem C8_methods_catch_every_exception
    (open_ : string -> file_mode -> M world unit)
    (write_ : string -> string -> M world unit)
    (self : CSVWriter) (w : world) :
  (initialize_files = initialize_files_with open_file file_write /\
   write_data = write_data_with open_file file_write /\
   write_hazard_event = write_hazard_event_with open_file file_write) /\
  (exists b s' w',
     initialize_files_with open_ write_ (self, w) = (Return b, (s', w')) /\
     match initialize_files_body open_ write_ (self, w) with
     | (Raise e, (s1, w1)) =>
         b = false /\ s' = s1 /\ w' = logged init_message e w1
     | (Return r, (s1, w1)) =>
         r = true /\ b = true /\ s' = s1 /\ w' = w1
     end) /\
  (forall sensor_data simulation_state,
     exists w',
       write_data_with open_ write_ self sensor_data simulation_state w =
         (Return tt, w') /\
       match sensor_data with
       | [] => w' = w
       | _ :: _ =>
           match write_data_body open_ write_ self sensor_data
                   simulation_state w with
           | (Raise e, w1) => w' = logged data_message e w1
           | (Return _, w1) => w' = w1
           end
       end) /\
  (forall hazard_event,
     exists w',
       write_hazard_event_with open_ write_ self hazard_event w =
         (Return tt, w') /\
       match write_hazard_event_body open_ write_ self hazard_event w with
       | (Raise e, w1) => w' = logged hazard_message e w1
       | (Return _, w1) => w' = w1
       end) /\
  (exists b s' w',
     initialize_files (self, w) = (Return b, (s', w')) /\
     (b = true -> stdout w' = stdout w) /\
     (b = false ->
      exists e, stdout w' =
                  (stdout w ++ [{| message := init_message; cause := e |}])%list) /\
     (forall e,
        header_block_runs self w (write_header_data self) (data_path self) = true ->
        open_error w (data_path self) = Some e ->
        b = false /\ w' = logged init_message e w) /\
     (forall e w1,
        header_step
          (header_block_runs self w (write_header_data self) (data_path self))
          (data_path self) data_header w = inr w1 ->
        header_block_runs self w (write_header_hazard self) (hazard_path self) = true ->
        open_error w1 (hazard_path self) = Some e ->
        b = false /\ w' = logged init_message e w1)) /\
  (forall sensor_data simulation_state,
     exists w',
       write_data self sensor_data simulation_state w = (Return tt, w') /\
       (forall e, sensor_data <> [] ->
                  open_error w (data_path self) = Some e ->
                  w' = logged data_message e w) /\
       (forall rows err,
          open_error w (data_path self) = None ->
          sample_rows (dict_get simulation_state "simulation_time" (PyInt 0))
            (dict_get simulation_state "step" (PyInt 0)) sensor_data = (rows, err) ->
          w' = match err with
               | Some e =>
                   logged data_message e
                     (appended (data_path self) (rows_text rows) w)
               | None =>
                   match sensor_data with
                   | [] => w
                   | _ :: _ => appended (data_path self) (rows_text rows) w
                   end
               end)) /\
  (forall hazard_event,
     exists w',
       write_hazard_event self hazard_event w = (Return tt, w') /\
       (forall e, open_error w (hazard_path self) = Some e ->
                  w' = logged hazard_message e w) /\
       (open_error w (hazard_path self) = None -> stdout w' = stdout w)).
Proof.
  split; [exact methods_are_guarded|].
  split; [|split; [|split; [|split; [|split]]]].
  - unfold initialize_files_with, try_except.
    destruct (initialize_files_body open_ write_ (self, w))
      as [[r|e] [s1 w1]] eqn:Hbody.
    + rewrite (initialize_files_body_returns _ _ _ _ _ Hbody).
      by eexists _, _, _.
    + by eexists _, _, _.
  - intros sensor_data simulation_state. unfold write_data_with.
    destruct sensor_data as [|d0 rest]; [by exists w|].
    unfold try_except.
    destruct (write_data_body open_ write_ self (d0 :: rest) simulation_state w)
      as [[[]|e] w1]; by eexists.
  - intros hazard_event. unfold write_hazard_event_with, try_except.
    destruct (write_hazard_event_body open_ write_ self hazard_event w)
      as [[[]|e] w1]; by eexists.
  - rewrite initialize_files_blocks.
    destruct (header_step _ (data_path self) _ w) as [e|w1] eqn:H1.
    + eexists _, _, _. split; [reflexivity|]. split; [done|].
      split; [intros _; by exists e|].
      split; [|done].
      intros e' Hgo Herr. rewrite Hgo in H1. unfold header_step in H1.
      rewrite Herr in H1. by injection H1 as ->.
    + destruct (header_step_frame _ _ _ _ _ H1) as (_ & _ & Ho1).
      destruct (header_step _ (hazard_path self) _ w1) as [e|w2] eqn:H2.
      * eexists _, _, _. split; [reflexivity|]. split; [done|].
        split; [intros _; exists e; simpl; by rewrite Ho1|].
        split.
        -- intros e' Hgo Herr. rewrite Hgo in H1. unfold header_step in H1.
           by rewrite Herr in H1.
        -- intros e' w1' [= <-] Hgo Herr. rewrite Hgo in H2.
           unfold header_step in H2. rewrite Herr in H2.
           by injection H2 as ->.
      * destruct (header_step_frame _ _ _ _ _ H2) as (_ & _ & Ho2).
        eexists _, _, _. split; [reflexivity|].
        split; [intros _; by rewrite Ho2|]. split; [done|].
        split.
        -- intros e' Hgo Herr. rewrite Hgo in H1. unfold header_step in H1.
           by rewrite Herr in H1.
        -- intros e' w1' [= <-] Hgo Herr. rewrite Hgo in H2.
           unfold header_step in H2. by rewrite Herr in H2.
  - intros sensor_data simulation_state.
    exists (write_data_result self sensor_data simulation_state w).
    split; [apply write_data_eq|]. split.
    + intros e Hne Hopen. unfold write_data_result.
      destruct sensor_data; [done|]. by rewrite Hopen.
    + intros rows err Hopen Hrows. unfold write_data_result.
      destruct sensor_data as [|d0 rest].
      * simpl in Hrows. by injection Hrows as <- <-.
      * rewrite Hopen, Hrows. by destruct err.
  - intros hazard_event.
    exists (write_hazard_event_result self hazard_event w).
    split; [apply write_hazard_event_eq|]. split.
    + intros e Hopen. unfold write_hazard_event_result. by rewrite Hopen.
    + intros Hopen. unfold write_hazard_event_result. rewrite Hopen.
      by destruct (appended_frame (hazard_path self)
                     (Csv.writerow (hazard_row hazard_event)) w)
        as (_ & _ & _ & ->).
Qed.

(** for instance, where every write fails: [initialize_files] opens the
    samples file, the write of the header raises, and the method returns
    [False] with that exception printed; the file made by [open] stays *)
Lemma C8_methods_catch_every_exception_witness :
  exists s' w',
    initialize_files_with open_file write_refused (writer_default, world_with_dir) =
      (Return false, (s', w')) /\
    stdout w' =
      [{| message := init_message;
          cause := OSError EACCES "output_data/simulation_data.csv" |}] /\
    fs w' !! "output_data/simulation_data.csv" = Some (File EmptyString).
Proof.
  destruct (C8_methods_catch_every_exception open_file write_refused
              writer_default world_with_dir)
    as (_ & (b & s' & w' & Hrun & Hbody) & _).
  assert (Hraise :
    initialize_files_body open_file write_refused (writer_default, world_with_dir) =
      (Raise (OSError EACCES "output_data/simulation_data.csv"),
       (writer_default,
        with_file "output_data/simulation_data.csv" EmptyString world_with_dir)))
    by (vm_compute; reflexivity).
  rewrite Hraise in Hbody. destruct Hbody as (-> & -> & ->).
  exists writer_default,
    (logged init_message (OSError EACCES "output_data/simulation_data.csv")
       (with_file "output_data/simulation_data.csv" EmptyString world_with_dir)).
  split; [exact Hrun|]. split; [reflexivity|]. vm_compute. reflexivity.
Defined.
